(** * PocketBase [apis] package: the api router, its error handler, the
      static admin UI handler and the installer redirect; and the access
      rule core the specification describes around it.

    The Go code of [apis/base.go] is embedded function by function.  The
    packages it calls (net/http, net/url, path/filepath, io/fs, echo, cast,
    rest, daos, store) appear as modules of the same name holding the part
    of their behaviour the code relies on.  Definitions come first, the
    properties follow in the second half. *)

From Stdlib Require Import ZArith Ascii String.
From stdpp Require Import base option list strings gmap.

#[local] Set Warnings "-register-all".

Local Open Scope string_scope.
Local Open Scope Z_scope.

(** ** net/http *)

Module http.
Definition StatusOK : Z := 200.
Definition StatusTemporaryRedirect : Z := 307.
Definition StatusBadRequest : Z := 400.
Definition StatusNotFound : Z := 404.
Definition MethodGet : string := "GET".
Definition MethodHead : string := "HEAD".

(** The 5xx class of status codes. *)
Definition isServerError (code : Z) : bool :=
  (500 <=? code) && (code <=? 599).
End http.

(** ** Errors

    The dynamic types the error handler switches on: [*echo.HTTPError],
    [*rest.ApiError], and every other error value, kept as its text. *)

Inductive error : Type :=
| ofHTTPError (v : HTTPError)
| ofApiError (v : ApiError)
| errorString (text : string)
with HTTPError : Type :=
| mkHTTPError (Code : Z) (Message : string) (Internal : option error)
with ApiError : Type :=
| mkApiError (Code : Z) (Message : string) (rawData : option error).

Module rest.
Definition Code (e : ApiError) : Z :=
  match e with mkApiError code _ _ => code end.
Definition Message (e : ApiError) : string :=
  match e with mkApiError _ msg _ => msg end.
Definition RawData (e : ApiError) : option error :=
  match e with mkApiError _ _ raw => raw end.

(** Modelled from the spec: tools/rest is missing from the sources and
    the spec does not describe it; the constructor keeps the status, the
    message and the raw data it is given. *)
Definition NewApiError (status : Z) (message : string) (data : option error)
  : ApiError :=
  mkApiError status message data.

(** Modelled from the spec: tools/rest is missing from the sources and
    the spec does not describe it; the constructor is read off its name,
    an [ApiError] with net/http's StatusBadRequest and a default message
    in place of an empty one. *)
Definition NewBadRequestError (message : string) (data : option error)
  : ApiError :=
  NewApiError http.StatusBadRequest
    (if String.eqb message ""
     then "Something went wrong while processing your request."
     else message)
    data.
End rest.

(** ** Dynamically typed values and spf13/cast *)

Inductive any : Type :=
| Nil
| Int (n : Z)
| Bool (b : bool).

Module cast.
(** [cast.ToInt]: an int is itself, a bool is 1 or 0, nil is 0. *)
Definition ToInt (v : any) : Z :=
  match v with
  | Int n => n
  | Bool true => 1
  | Bool false => 0
  | Nil => 0
  end.
End cast.

(** ** tools/store: the application cache *)

Module store.
Definition Has (s : gmap string any) (key : string) : bool :=
  bool_decide (is_Some (s !! key)).

Definition Get (s : gmap string any) (key : string) : any :=
  default Nil (s !! key).

Definition Set' (s : gmap string any) (key : string) (value : any)
  : gmap string any :=
  <[key := value]> s.
End store.

(** ** The data model of the rule core

    Collections, records, identities and the filter AST live outside
    [apis/base.go]; the definitions follow section 3 of the
    specification. *)

(** Modelled from the spec: the values a record field holds, one case per
    declared data type of section 3, and null. *)
Inductive Value : Type :=
| VNull
| VText (s : string)
| VNumber (n : Z)
| VBool (b : bool)
| VDate (s : string)
| VJson (s : string)
| VRelation (ids : list string).

(** Modelled from the spec: the comparison operators of section 4.1. *)
Inductive CmpOp : Type := OpEq | OpNeq | OpGt | OpGte | OpLt | OpLte | OpLike | OpNlike.

(** Modelled from the spec: a comparison operator and whether it is the
    [?]-prefixed any-of variant. *)
Record Operator : Type := mkOperator { cmp : CmpOp; anyOf : bool }.

Inductive LogicalOp : Type := LAnd | LOr.

Inductive Literal : Type :=
| LString (s : string)
| LNumber (n : Z)
| LBool (b : bool)
| LNull.

(** Modelled from the spec: the filter AST of section 3; [AlwaysTrue] is
    what the parser yields for the empty string. *)
Inductive AST : Type :=
| AlwaysTrue
| Lit (l : Literal)
| Identifier (path : list string)
| Comparison (op : Operator) (lhs rhs : AST)
| Logical (op : LogicalOp) (lhs rhs : AST)
| Group (inner : AST).

Inductive DataType : Type := DText | DNumber | DBool | DDate | DRelation | DJson.

Record Field : Type := mkField {
  fieldName : string;
  dataType : DataType;
  required : bool;
  targetCollection : option string
}.

Inductive CollectionType : Type := TBase | TAuth | TView.

(** Modelled from the spec: a collection of section 3.  A rule is absent
    ([None]), empty ([Some AlwaysTrue]) or a parsed filter expression. *)
Record Collection : Type := mkCollection {
  name : string;
  type : CollectionType;
  fields : list Field;
  listRule : option AST;
  viewRule : option AST;
  createRule : option AST;
  updateRule : option AST;
  deleteRule : option AST
}.

(** Modelled from the spec: a record of section 3, with its system
    fields. *)
Record Record' : Type := mkRecord {
  collection : string;
  id : string;
  created : string;
  updated : string;
  data : gmap string Value
}.

Inductive Kind : Type := guest | user | admin.

(** Modelled from the spec: the identity of section 3. *)
Record AuthContext : Type := mkAuthContext {
  kind : Kind;
  authRecord : option Record';
  claims : gmap string Value
}.

(** Modelled from the spec: the guest identity. *)
Definition guestContext : AuthContext := mkAuthContext guest None ∅.

(** Modelled from the spec: the request side of an evaluation context,
    the pseudo-fields under [@request] of section 4.2. *)
Record RequestContext : Type := mkRequestContext {
  method : string;
  query : gmap string Value;
  body : gmap string Value
}.

(** Modelled from the spec: the context an expression is evaluated in. *)
Record Context : Type := mkContext {
  auth : AuthContext;
  request : RequestContext
}.

Inductive Operation : Type := opList | opView | opCreate | opUpdate | opDelete.

Inductive Decision : Type := allow | deny.

(** ** daos: the schema store, the record store and the admin store *)

Module daos.
(** Modelled from the spec: the daos package is missing from the sources;
    the spec names a schema store, a record store, an administrative
    identity store, and storage queries that can fail transiently.  The
    value holds their contents and the failure, if any, the next query
    runs into. *)
Record Dao : Type := mkDao {
  admins : list string;
  collections : list Collection;
  records : list Record';
  failure : option error
}.

(** Modelled from the spec: [TotalAdmins] counts the admins of the
    administrative identity store, or reports the storage failure. *)
Definition TotalAdmins (d : Dao) : Z * option error :=
  match failure d with
  | Some e => (0, Some e)
  | None => (Z.of_nat (List.length (admins d)), None)
  end.

(** Modelled from the spec: the schema store, a collection by name. *)
Definition FindCollection (d : Dao) (c : string) : option Collection :=
  List.find (fun col => String.eqb (name col) c) (collections d).

(** Modelled from the spec: the record store, the record of collection
    [c] with identifier [i]. *)
Definition FindRecord (d : Dao) (c i : string) : option Record' * option error :=
  match failure d with
  | Some e => (None, Some e)
  | None =>
      (List.find (fun r => String.eqb (collection r) c && String.eqb (id r) i)
         (records d), None)
  end.

(** Modelled from the spec: the record store, all records of collection
    [c]. *)
Definition FindRecords (d : Dao) (c : string) : list Record' * option error :=
  match failure d with
  | Some e => ([], Some e)
  | None => (List.filter (fun r => String.eqb (collection r) c) (records d), None)
  end.
End daos.

(** ** core.App: the state a handler reaches through [app] *)

Record App : Type := mkApp {
  IsDebug : bool;
  Dao : daos.Dao;
  Cache : gmap string any;
  (** what [log.Println] has printed so far *)
  Log : list (option error)
}.

Definition setCache (app : App) (c : gmap string any) : App :=
  mkApp (IsDebug app) (Dao app) c (Log app).

Definition Println (app : App) (v : option error) : App :=
  mkApp (IsDebug app) (Dao app) (Cache app) (Log app ++ [v])%list.

(** ** The expression evaluator

    The evaluator lives outside [apis/base.go]; the definitions follow
    section 4.2 of the specification.  An evaluation yields a boolean or
    raises one of two faults. *)

(** Modelled from the spec: what an evaluation can raise, a syntactically
    invalid node that reached it (section 4.2) or a storage failure during
    relation resolution (section 7). *)
Inductive Fault : Type :=
| InvalidNode
| StorageFailure (e : error).

Inductive Res (A : Type) : Type :=
| Ok (a : A)
| Raise (f : Fault).
Arguments Ok {A} a.
Arguments Raise {A} f.

Definition bind {A B : Type} (m : Res A) (k : A -> Res B) : Res B :=
  match m with
  | Ok a => k a
  | Raise f => Raise f
  end.

Notation "'do' x <- m ; k" := (bind m (fun x => k))
  (at level 10, x name, m at level 100, k at level 200).

(** *** Comparable values and coercion *)

Definition isDigit (c : ascii) : bool :=
  (48 <=? nat_of_ascii c)%nat && (nat_of_ascii c <=? 57)%nat.

Fixpoint parseDigits (acc : Z) (s : string) : option Z :=
  match s with
  | "" => Some acc
  | String c r =>
      if isDigit c
      then parseDigits (10 * acc + (Z.of_nat (nat_of_ascii c) - 48)) r
      else None
  end.

(** A numeric string: decimal digits after an optional minus sign. *)
Definition parseNumber (s : string) : option Z :=
  match s with
  | "" => None
  | String "-" "" => None
  | String "-" r => Z.opp <$> parseDigits 0 r
  | _ => parseDigits 0 s
  end.

Definition lowerChar (c : ascii) : ascii :=
  let n := nat_of_ascii c in
  if (65 <=? n)%nat && (n <=? 90)%nat then ascii_of_nat (n + 32) else c.

Fixpoint toLower (s : string) : string :=
  match s with
  | "" => ""
  | String c r => String (lowerChar c) (toLower r)
  end.

Fixpoint contains (s sub : string) : bool :=
  String.prefix sub s ||
  match s with
  | "" => false
  | String _ r => contains r sub
  end.

Inductive Comparable : Type :=
| CNull
| CNumber (n : Z)
| CText (s : string)
| CBool (b : bool)
| CDate (s : string).

(** Modelled from the spec: both operands brought to one comparable type,
    if there is one; a numeric string meets a number as a number, a date
    string meets a date as a date (section 4.2, type coercion). *)
Definition normalize (a b : Value) : option (Comparable * Comparable) :=
  match a, b with
  | VNull, VNull => Some (CNull, CNull)
  | VNumber x, VNumber y => Some (CNumber x, CNumber y)
  | VText s, VNumber y => (fun x => (CNumber x, CNumber y)) <$> parseNumber s
  | VNumber x, VText s => (fun y => (CNumber x, CNumber y)) <$> parseNumber s
  | VText s, VText t => Some (CText s, CText t)
  | VJson s, VJson t => Some (CText s, CText t)
  | VBool x, VBool y => Some (CBool x, CBool y)
  | VDate s, VDate t => Some (CDate s, CDate t)
  | VText s, VDate t => Some (CDate s, CDate t)
  | VDate s, VText t => Some (CDate s, CDate t)
  | _, _ => None
  end.

Definition sameValue (p : Comparable * Comparable) : bool :=
  match p with
  | (CNull, CNull) => true
  | (CNumber x, CNumber y) => x =? y
  | (CText s, CText t) => String.eqb s t
  | (CBool x, CBool y) => Bool.eqb x y
  | (CDate s, CDate t) => String.eqb s t
  | _ => false
  end.

Definition lessThan (p : Comparable * Comparable) : bool :=
  match p with
  | (CNumber x, CNumber y) => x <? y
  | (CText s, CText t) => String.ltb s t
  | (CDate s, CDate t) => String.ltb s t
  | _ => false
  end.

(** Whether the common type is an ordered one. *)
Definition ordered (p : Comparable * Comparable) : bool :=
  match p with
  | (CNumber _, CNumber _) | (CText _, CText _) | (CDate _, CDate _) => true
  | _ => false
  end.

(** The text of both sides, for the containment operators. *)
Definition texts (p : Comparable * Comparable) : option (string * string) :=
  match p with
  | (CText s, CText t) => Some (s, t)
  | (CDate s, CDate t) => Some (s, t)
  | _ => None
  end.

Definition swap (p : Comparable * Comparable) : Comparable * Comparable :=
  (snd p, fst p).

(** Modelled from the spec: one operator on one pair of values.  A pair
    with no common comparable type is a non-match whatever the operator;
    [~] is case-insensitive containment. *)
Definition compareValues (op : CmpOp) (a b : Value) : bool :=
  match normalize a b with
  | None => false
  | Some p =>
      match op with
      | OpEq => sameValue p
      | OpNeq => negb (sameValue p)
      | OpLt => lessThan p
      | OpLte => ordered p && (lessThan p || sameValue p)
      | OpGt => lessThan (swap p)
      | OpGte => ordered p && (lessThan (swap p) || sameValue p)
      | OpLike =>
          match texts p with
          | Some (s, t) => contains (toLower s) (toLower t)
          | None => false
          end
      | OpNlike =>
          match texts p with
          | Some (s, t) => negb (contains (toLower s) (toLower t))
          | None => false
          end
      end
  end.

(** *** Identifier resolution *)

(** Modelled from the spec: the value a literal stands for. *)
Definition literalValue (l : Literal) : Value :=
  match l with
  | LString s => VText s
  | LNumber n => VNumber n
  | LBool b => VBool b
  | LNull => VNull
  end.

(** Modelled from the spec: the value of a field of a record, the system
    fields included. *)
Definition fieldValue (r : Record') (f : string) : option Value :=
  if String.eqb f "id" then Some (VText (id r))
  else if String.eqb f "created" then Some (VDate (created r))
  else if String.eqb f "updated" then Some (VDate (updated r))
  else data r !! f.

(** Modelled from the spec: the schema accessor, the collection a
    relation field of [r] points to. *)
Definition relationTarget (d : daos.Dao) (r : Record') (f : string)
  : option string :=
  match daos.FindCollection d (collection r) with
  | None => None
  | Some col =>
      match List.find (fun fld => String.eqb (fieldName fld) f) (fields col) with
      | Some fld =>
          match dataType fld with
          | DRelation => targetCollection fld
          | _ => None
          end
      | None => None
      end
  end.

(** Modelled from the spec: the values a terminal segment stands for; a
    relation field fans out to the identifiers it holds.  [None] is a
    resolution gap. *)
Definition terminal (v : option Value) : option (list Value) :=
  match v with
  | None => None
  | Some (VRelation ids) => Some (List.map VText ids)
  | Some w => Some [w]
  end.

(** Modelled from the spec: resolution continued on each element of a
    fan-out; one gap makes the whole a gap. *)
Fixpoint collect {A : Type} (f : A -> Res (option (list Value))) (l : list A)
  : Res (option (list Value)) :=
  match l with
  | [] => Ok (Some [])
  | x :: xs =>
      do v <- f x;
      do vs <- collect f xs;
      Ok (match v, vs with
          | Some a, Some b => Some (a ++ b)%list
          | _, _ => None
          end)
  end.

(** Modelled from the spec: a related record fetched from the record
    store; a record that is not there is a gap, a store that fails a
    fault. *)
Definition fetch (d : daos.Dao) (target i : string)
  (k : Record' -> Res (option (list Value))) : Res (option (list Value)) :=
  match daos.FindRecord d target i with
  | (_, Some e) => Raise (StorageFailure e)
  | (None, None) => Ok None
  | (Some r, None) => k r
  end.

(** Modelled from the spec: a dot-path read from a record; every segment
    before the last names a relation field, whose related records are
    fetched and resolved in turn (section 4.2, relation traversal). *)
Fixpoint resolveFrom (d : daos.Dao) (path : list string) (r : Record')
  : Res (option (list Value)) :=
  match path with
  | [] => Ok None
  | f :: rest =>
      match rest with
      | [] => Ok (terminal (fieldValue r f))
      | _ :: _ =>
          match fieldValue r f, relationTarget d r f with
          | Some (VRelation ids), Some target =>
              collect (fun i => fetch d target i (resolveFrom d rest)) ids
          | _, _ => Ok None
          end
      end
  end.

(** Modelled from the spec: the pseudo-fields under [@request]. *)
Definition resolveRequest (ctx : Context) (path : list string)
  : option (list Value) :=
  match path with
  | ["auth"; "id"] =>
      (fun r => [VText (id r)]) <$> authRecord (auth ctx)
  | ["auth"; "collectionName"] =>
      (fun r => [VText (collection r)]) <$> authRecord (auth ctx)
  | ["method"] => Some [VText (method (request ctx))]
  | ["query"; k] => terminal (query (request ctx) !! k)
  | ["data"; k] => terminal (body (request ctx) !! k)
  | _ => None
  end.

(** Modelled from the spec: identifier resolution by the leading segment,
    [@request], [@collection.<name>] or a field of the record. *)
Definition resolveIdentifier (d : daos.Dao) (path : list string)
  (rec : option Record') (ctx : Context) : Res (option (list Value)) :=
  match path with
  | [] => Ok None
  | root :: rest =>
      if String.eqb root "@request" then Ok (resolveRequest ctx rest)
      else if String.eqb root "@collection" then
        match rest with
        | [] => Ok None
        | c :: rest' =>
            match daos.FindCollection d c with
            | None => Ok None
            | Some _ =>
                match daos.FindRecords d c with
                | (_, Some e) => Raise (StorageFailure e)
                | (rs, None) => collect (resolveFrom d rest') rs
                end
            end
        end
      else
        match rec with
        | None => Ok None
        | Some r => resolveFrom d path r
        end
  end.

(** *** Evaluation *)

(** Modelled from the spec: a dot-path the lexer of section 4.1 accepts,
    segments that are not empty. *)
Definition validPath (path : list string) : bool :=
  match path with
  | [] => false
  | _ => forallb (fun seg => negb (String.eqb seg "")) path
  end.

(** Modelled from the spec: the values of an operand; a node that is no
    operand is the invalid node fault. *)
Definition resolveOperand (d : daos.Dao) (node : AST) (rec : option Record')
  (ctx : Context) : Res (option (list Value)) :=
  match node with
  | Lit l => Ok (Some [literalValue l])
  | Identifier path =>
      if validPath path then resolveIdentifier d path rec ctx
      else Raise InvalidNode
  | _ => Raise InvalidNode
  end.

(** Modelled from the spec: the default operators hold when the
    comparison holds for every resolved value and there is one, the any-of
    operators when it holds for at least one; a gap on either side is
    false. *)
Definition compareAll (op : Operator) (l r : option (list Value)) : bool :=
  match l, r with
  | Some ls, Some rs =>
      if anyOf op
      then existsb (fun a => existsb (compareValues (cmp op) a) rs) ls
      else negb (bool_decide (ls = [])) && negb (bool_decide (rs = [])) &&
           forallb (fun a => forallb (compareValues (cmp op) a) rs) ls
  | _, _ => false
  end.

(** Modelled from the spec: [evaluate] of section 4.2; logical nodes
    short-circuit. *)
Fixpoint evaluate (d : daos.Dao) (ast : AST) (rec : option Record')
  (ctx : Context) : Res bool :=
  match ast with
  | AlwaysTrue => Ok true
  | Group inner => evaluate d inner rec ctx
  | Logical LAnd a b =>
      do x <- evaluate d a rec ctx;
      if x then evaluate d b rec ctx else Ok false
  | Logical LOr a b =>
      do x <- evaluate d a rec ctx;
      if x then Ok true else evaluate d b rec ctx
  | Comparison op l r =>
      do lv <- resolveOperand d l rec ctx;
      do rv <- resolveOperand d r rec ctx;
      Ok (compareAll op lv rv)
  | Lit _ | Identifier _ => Raise InvalidNode
  end.




(** ** The rule resolver *)

(** Modelled from the spec: the rule of a collection for an operation. *)
Definition ruleFor (col : Collection) (op : Operation) : option AST :=
  match op with
  | opList => listRule col
  | opView => viewRule col
  | opCreate => createRule col
  | opUpdate => updateRule col
  | opDelete => deleteRule col
  end.

(** Modelled from the spec: [canPerform] of section 4.3, the decision
    table read in order. *)
Definition canPerform (d : daos.Dao) (col : Collection) (op : Operation)
  (rec : option Record') (ctx : Context) : Res Decision :=
  match kind (auth ctx) with
  | admin => Ok allow
  | _ =>
      match ruleFor col op with
      | None => Ok deny
      | Some AlwaysTrue => Ok allow
      | Some rule =>
          do b <- evaluate d rule rec ctx;
          Ok (if b then allow else deny)
      end
  end.

(** ** The auth context propagator *)

(** Modelled from the spec: the raw credential material of a request. *)
Inductive Credential : Type :=
| Absent
| Token (raw : string).

(** Modelled from the spec: what the credential verifier of section 6
    makes of a token. *)
Inductive Verdict : Type :=
| Malformed
| Invalid
| Expired
| Valid (subject : string) (cl : gmap string Value).

(** Modelled from the spec: whether [c] names an auth collection. *)
Definition isAuthCollection (d : daos.Dao) (c : string) : bool :=
  match daos.FindCollection d c with
  | Some col => match type col with TAuth => true | _ => false end
  | None => false
  end.

(** Modelled from the spec: the record of an auth collection a subject
    resolves to. *)
Definition findAuthRecord (d : daos.Dao) (subject : string) : option Record' :=
  List.find
    (fun r => String.eqb (id r) subject && isAuthCollection d (collection r))
    (daos.records d).

(** Modelled from the spec: the propagator of section 4.4, one identity
    for every credential. *)
Definition loadAuthContext (verify : string -> Verdict) (d : daos.Dao)
  (cred : Credential) : AuthContext :=
  match cred with
  | Absent => guestContext
  | Token raw =>
      match verify raw with
      | Valid subject cl =>
          match findAuthRecord d subject with
          | Some r => mkAuthContext user (Some r) cl
          | None =>
              if existsb (String.eqb subject) (daos.admins d)
              then mkAuthContext admin None cl
              else guestContext
          end
      | _ => guestContext
      end
  end.

(** ** strings, unicode/utf8, net/url, path/filepath, io/fs

    The Go standard library functions [StaticDirectoryHandler] goes
    through, on byte strings.  [filepath] is the Unix one: the separator is
    the slash and there are no volume names. *)

Module strings.
Fixpoint HasPrefix (s prefix : string) {struct prefix} : bool :=
  match prefix with
  | "" => true
  | String a prefix' =>
      match s with
      | "" => false
      | String b s' => Ascii.eqb a b && HasPrefix s' prefix'
      end
  end.

Definition TrimPrefix (s prefix : string) : string :=
  if HasPrefix s prefix
  then String.substring (String.length prefix)
         (String.length s - String.length prefix) s
  else s.

(** [strings.Split(s, "/")]: the elements between the slashes. *)
Fixpoint SplitSlash (s : string) : list string :=
  match s with
  | "" => [""]
  | String c r =>
      if Ascii.eqb c "/" then "" :: SplitSlash r
      else match SplitSlash r with
           | e :: es => String c e :: es
           | [] => [String c ""]
           end
  end.
End strings.

Module utf8.
Definition between (lo hi : nat) (c : ascii) : bool :=
  ((lo <=? nat_of_ascii c) && (nat_of_ascii c <=? hi))%nat.

Definition continuation (c : ascii) : bool := between 128 191 c.

(** The second byte of a three byte sequence, by its first. *)
Definition second3 (c0 c1 : ascii) : bool :=
  if between 224 224 c0 then between 160 191 c1
  else if between 237 237 c0 then between 128 159 c1
  else continuation c1.

(** The second byte of a four byte sequence, by its first. *)
Definition second4 (c0 c1 : ascii) : bool :=
  if between 240 240 c0 then between 144 191 c1
  else if between 244 244 c0 then between 128 143 c1
  else continuation c1.

Fixpoint ValidString (s : string) : bool :=
  match s with
  | "" => true
  | String c0 r0 =>
      if between 0 127 c0 then ValidString r0
      else
        match r0 with
        | "" => false
        | String c1 r1 =>
            if between 194 223 c0 then continuation c1 && ValidString r1
            else
              match r1 with
              | "" => false
              | String c2 r2 =>
                  if between 224 239 c0
                  then second3 c0 c1 && continuation c2 && ValidString r2
                  else
                    match r2 with
                    | "" => false
                    | String c3 r3 =>
                        between 240 244 c0 && second4 c0 c1 &&
                        continuation c2 && continuation c3 && ValidString r3
                    end
              end
        end
  end.
End utf8.

Module url.
Definition ishex (c : ascii) : bool :=
  utf8.between 48 57 c || utf8.between 97 102 c || utf8.between 65 70 c.

Definition unhex (c : ascii) : nat :=
  let n := nat_of_ascii c in
  if utf8.between 48 57 c then n - 48
  else if utf8.between 97 102 c then n - 97 + 10
  else if utf8.between 65 70 c then n - 65 + 10
  else 0.

(** Percent decoding in path segment mode: [+] stays, every [%] must be
    followed by two hexadecimal digits. *)
Fixpoint unescape (s : string) : option string :=
  match s with
  | "" => Some ""
  | String c r =>
      if Ascii.eqb c "%" then
        match r with
        | String h (String l r') =>
            if ishex h && ishex l
            then String (ascii_of_nat (unhex h * 16 + unhex l)) <$> unescape r'
            else None
        | _ => None
        end
      else String c <$> unescape r
  end.

Definition PathUnescape (s : string) : string * option error :=
  match unescape s with
  | Some t => (t, None)
  | None => ("", Some (errorString "invalid URL escape"))
  end.
End url.

Module filepath.
(** Where [..] can still remove an element: the output holds one that is
    not itself a kept [..]. *)
Definition canBacktrack (out : list string) : bool :=
  match out with
  | top :: _ => negb (String.eqb top "..")
  | [] => false
  end.

(** One path element processed; [out] is the output so far, last element
    first. *)
Definition step (rooted : bool) (out : list string) (elem : string)
  : list string :=
  if String.eqb elem "" then out
  else if String.eqb elem "." then out
  else if String.eqb elem ".." then
    if canBacktrack out then List.tl out
    else if rooted then out
    else ".." :: out
  else elem :: out.

Definition Clean (path : string) : string :=
  if String.eqb path "" then "."
  else
    let rooted := strings.HasPrefix path "/" in
    let out := List.fold_left (step rooted) (strings.SplitSlash path) [] in
    if rooted then "/" +:+ String.concat "/" (List.rev out)
    else match out with
         | [] => "."
         | _ => String.concat "/" (List.rev out)
         end.

(** The separator is the slash already. *)
Definition ToSlash (path : string) : string := path.

(** [filepath.Join] of two elements. *)
Definition Join (a b : string) : string :=
  if String.eqb a "" then (if String.eqb b "" then "" else Clean b)
  else if String.eqb b "" then Clean a
  else Clean (a +:+ "/" +:+ b).
End filepath.

Module fs.
Definition validElem (elem : string) : bool :=
  negb (String.eqb elem "" || String.eqb elem "." || String.eqb elem "..").

(** [fs.ValidPath]: valid UTF-8, and either the root [.] or slash
    separated elements none of which is empty, [.] or [..]. *)
Definition ValidPath (name : string) : bool :=
  utf8.ValidString name &&
  (String.eqb name "." || forallb validElem (strings.SplitSlash name)).

Inductive Entry : Type :=
| File (content : string)
| Dir.

(** A file system, by the entries below its root. *)
Definition FS : Type := gmap string Entry.

(** [Open] rejects every name that is not a valid path. *)
Definition Open (fsys : FS) (name : string) : option Entry :=
  if ValidPath name then
    if String.eqb name "." then Some Dir else fsys !! name
  else None.
End fs.

(** ** echo: contexts, handlers, middlewares, the router *)

Module echo.
Record Request : Type := mkRequest {
  Method : string;
  (** [URL.Path] *)
  Path : string;
  (** [URL.Query()], the parsed query string *)
  Query : gmap string (list string);
  (** the raw credential material the request carries *)
  Authorization : Credential
}.

Inductive Body : Type :=
| NoBody
| JSONBody (v : ApiError)
| FileBody (content : string).

Record Response : Type := mkResponse {
  Committed : bool;
  Status : Z;
  Location : option string;
  Payload : Body
}.

Record Context : Type := mkContext {
  request : Request;
  response : Response;
  (** the value of the [*] path parameter *)
  pathParam : string;
  (** the identity stored for the handlers, once loaded *)
  authContext : option AuthContext;
  (** the failure, if any, that writing a body to the client runs into *)
  writeError : option error
}.

Definition setResponse (c : Context) (r : Response) : Context :=
  mkContext (request c) r (pathParam c) (authContext c) (writeError c).

Definition setPathParam (c : Context) (p : string) : Context :=
  mkContext (request c) (response c) p (authContext c) (writeError c).

Definition setAuthContext (c : Context) (a : AuthContext) : Context :=
  mkContext (request c) (response c) (pathParam c) (Some a) (writeError c).

Definition ErrNotFound : error :=
  ofHTTPError (mkHTTPError http.StatusNotFound "Not Found" None).

Definition ErrInvalidRedirectCode : error :=
  errorString "invalid redirect status code".

(** The header goes out with the status; there is no body to write. *)
Definition NoContent (c : Context) (code : Z) : Context * option error :=
  (setResponse c (mkResponse true code (Location (response c)) NoBody), None).

(** The header goes out with the status, then the encoded value, unless
    writing it fails. *)
Definition JSON (c : Context) (code : Z) (v : ApiError)
  : Context * option error :=
  match writeError c with
  | Some e =>
      (setResponse c (mkResponse true code (Location (response c)) NoBody),
       Some e)
  | None =>
      (setResponse c
         (mkResponse true code (Location (response c)) (JSONBody v)),
       None)
  end.

Definition Redirect (c : Context) (code : Z) (url : string)
  : Context * option error :=
  if (code <? 300) || (308 <? code) then (c, Some ErrInvalidRedirectCode)
  else (setResponse c (mkResponse true code (Some url) NoBody), None).

Definition indexPage : string := "index.html".

Definition ServeContent (c : Context) (content : string) : Context :=
  setResponse c
    (mkResponse true http.StatusOK (Location (response c)) (FileBody content)).

(** [c.FileFS]: the named file of the file system is served, the index
    page of a directory in its place; a name that does not open is a 404
    error. *)
Definition FileFS (c : Context) (file : string) (fsys : fs.FS)
  : Context * option error :=
  match fs.Open fsys file with
  | None => (c, Some ErrNotFound)
  | Some (fs.File content) => (ServeContent c content, None)
  | Some fs.Dir =>
      match fs.Open fsys (filepath.ToSlash (filepath.Join file indexPage)) with
      | None => (c, Some ErrNotFound)
      | Some (fs.File content) => (ServeContent c content, None)
      | Some fs.Dir =>
          (c, Some (errorString "file does not implement io.ReadSeeker"))
      end
  end.

(** What a handler runs on: the application and the request context. *)
Definition State : Type := App * Context.

Definition HandlerFunc : Type := State -> State * option error.

(** A middleware either hands over to the next handler, [return next(c)],
    or returns without calling it. *)
Inductive Step : Type :=
| Next (s : State)
| Return (s : State) (err : option error).

Record MiddlewareFunc : Type := mkMiddleware {
  label : string;
  run : State -> Step
}.

Record Route : Type := mkRoute {
  (** [None] for a route registered with [Any] *)
  routeMethod : option string;
  routePath : string;
  handler : HandlerFunc;
  middlewares : list MiddlewareFunc
}.

Record Echo : Type := mkEcho {
  Debug : bool;
  premiddleware : list MiddlewareFunc;
  middleware : list MiddlewareFunc;
  routes : list Route;
  HTTPErrorHandler : State -> option error -> State
}.

Definition New : Echo :=
  mkEcho false [] [] [] (fun s _ => s).

Definition setDebug (e : Echo) (b : bool) : Echo :=
  mkEcho b (premiddleware e) (middleware e) (routes e) (HTTPErrorHandler e).

Definition Pre (e : Echo) (m : MiddlewareFunc) : Echo :=
  mkEcho (Debug e) (premiddleware e ++ [m])%list (middleware e) (routes e)
    (HTTPErrorHandler e).

Definition Use (e : Echo) (m : MiddlewareFunc) : Echo :=
  mkEcho (Debug e) (premiddleware e) (middleware e ++ [m])%list (routes e)
    (HTTPErrorHandler e).

Definition Add (e : Echo) (r : Route) : Echo :=
  mkEcho (Debug e) (premiddleware e) (middleware e) (routes e ++ [r])%list
    (HTTPErrorHandler e).

Definition setHTTPErrorHandler (e : Echo)
  (h : State -> option error -> State) : Echo :=
  mkEcho (Debug e) (premiddleware e) (middleware e) (routes e) h.

Definition GET (e : Echo) (path : string) (h : HandlerFunc)
  (m : list MiddlewareFunc) : Echo :=
  Add e (mkRoute (Some http.MethodGet) path h m).

(** What a request execution leaves behind, in order: each middleware
    that ran, with the state it found and what it did, and the route
    handler that ran, with the state it was called on. *)
Inductive Event : Type :=
| Ran (m : string) (s : State) (r : Step)
| Handled (path : string) (s : State).

Definition Traced : Type := State -> list Event * (State * option error).

(** [applyMiddleware(h, m...)]: the first middleware is the outermost. *)
Fixpoint applyMiddleware (h : Traced) (ms : list MiddlewareFunc) : Traced :=
  fun s =>
    match ms with
    | [] => h s
    | m :: rest =>
        match run m s with
        | Next s' =>
            let '(t, r) := applyMiddleware h rest s' in
            (Ran (label m) s (Next s') :: t, r)
        | Return s' err => ([Ran (label m) s (Return s' err)], (s', err))
        end
    end.

Definition routeHandler (r : Route) : Traced :=
  applyMiddleware (fun s => ([Handled (routePath r) s], handler r s))
    (middlewares r).

Section Serve.
(** The router: the route a request is dispatched to, one of the
    registered ones or the not-found route, and the value of its [*]
    parameter. *)
Variable find : list Route -> Request -> Route * string.

(** [ServeHTTP]: the pre middlewares run before the router, the
    middlewares of [Use] after it and around the route's own chain; an
    error that comes back goes to the error handler. *)
Definition ServeHTTP (e : Echo) (s : State) : list Event * State :=
  let routed : Traced := fun s1 =>
    let '(r, p) := find (routes e) (request (snd s1)) in
    applyMiddleware (routeHandler r) (middleware e)
      (fst s1, setPathParam (snd s1) p) in
  let '(t, (s', err)) := applyMiddleware routed (premiddleware e) s in
  (t, match err with
      | Some _ => HTTPErrorHandler e s' err
      | None => s'
      end).
End Serve.
End echo.

(** ** tools/hook *)

Module hook.
(** Modelled from the spec: tools/hook is missing from the sources; the
    spec has hooks registered at startup and fired synchronously on the
    triggering mutation.  The handlers run in registration order and the
    first error ends the run. *)
Fixpoint Trigger {A : Type} (hs : list (A -> A * option error)) (a : A)
  : A * option error :=
  match hs with
  | [] => (a, None)
  | h :: rest =>
      match h a with
      | (a', Some e) => (a', Some e)
      | (a', None) => Trigger rest a'
      end
  end.
End hook.

(** ** core: the hook registries of the application

    [app] is the state above together with its hooks; the handlers of a
    hook act on the state. *)

Module core.
(** What a BeforeServe handler does to the router it is given. *)
Inductive RouterCall : Type :=
| CallPre (m : echo.MiddlewareFunc)
| CallUse (m : echo.MiddlewareFunc)
| CallAdd (r : echo.Route).

Definition apply (e : echo.Echo) (call : RouterCall) : echo.Echo :=
  match call with
  | CallPre m => echo.Pre e m
  | CallUse m => echo.Use e m
  | CallAdd r => echo.Add e r
  end.

Record Hooks : Type := mkHooks {
  OnBeforeServe : list (App -> App * list RouterCall * option error);
  OnAdminAfterCreateRequest : list (App -> App * option error);
  OnAdminAfterDeleteRequest : list (App -> App * option error)
}.

(** A BeforeServe handler run on its [ServeEvent], the application and
    the router. *)
Definition onServeEvent (h : App -> App * list RouterCall * option error)
  (ev : App * echo.Echo) : (App * echo.Echo) * option error :=
  let '(app', calls, err) := h (fst ev) in
  ((app', List.fold_left apply calls (snd ev)), err).
End core.

(** What the other packages contribute to the router: the
    credential verifier behind [LoadAuthContext], the middlewares of
    echo/middleware and of this package, the routes each [Bind...Api]
    registers under [/api], and the embedded admin UI. *)
Record Packages : Type := mkPackages {
  verify : string -> Verdict;
  RemoveTrailingSlash : echo.State -> echo.Step;
  Recover : echo.State -> echo.Step;
  Secure : echo.State -> echo.Step;
  Gzip : echo.State -> echo.Step;
  ActivityLogger : echo.State -> echo.Step;
  SettingsApi : list echo.Route;
  AdminApi : list echo.Route;
  UserApi : list echo.Route;
  CollectionApi : list echo.Route;
  RecordApi : list echo.Route;
  FileApi : list echo.Route;
  RealtimeApi : list echo.Route;
  LogsApi : list echo.Route;
  DistIndexHTML : fs.FS;
  DistDirFS : fs.FS
}.

(** ** apis/base.go *)

(** Modelled from the spec: the body of [LoadAuthContext] is missing from
    the sources; per section 4.4 it stores the one identity the credential
    resolves to and hands over to the next handler, whatever the
    credential. *)
Definition LoadAuthContext (pkg : Packages) : echo.MiddlewareFunc :=
  echo.mkMiddleware "LoadAuthContext"
    (fun s =>
       let '(app, c) := s in
       echo.Next
         (app,
          echo.setAuthContext c
            (loadAuthContext (verify pkg) (Dao app)
               (echo.Authorization (echo.request c))))).

(** The custom error handler [InitApi] installs. *)
Definition HTTPErrorHandler (s : echo.State) (err : option error) : echo.State :=
  let '(app, c) := s in
  if echo.Committed (echo.response c) then s
  else
    let '(app1, apiErr) :=
      match err with
      | Some (ofHTTPError (mkHTTPError code message internal as v)) =>
          (if bool_decide (is_Some internal) && IsDebug app
           then Println app internal else app,
           rest.NewApiError code message (Some (ofHTTPError v)))
      | Some (ofApiError v) =>
          (if IsDebug app && bool_decide (is_Some (rest.RawData v))
           then Println app (rest.RawData v) else app,
           v)
      | _ =>
          (if bool_decide (is_Some err) && IsDebug app
           then Println app err else app,
           rest.NewBadRequestError "" err)
      end in
    (* Send response *)
    let '(c', cErr) :=
      if String.eqb (echo.Method (echo.request c)) http.MethodHead
      then echo.NoContent c (rest.Code apiErr)
      else echo.JSON c (rest.Code apiErr) apiErr in
    (* truly rare case; eg. client already disconnected *)
    (if bool_decide (is_Some cErr) && IsDebug app1
     then Println app1 err else app1,
     c').

(** The text of an error, what its [Error()] method returns. *)
Definition Error (e : error) : string :=
  match e with
  | ofHTTPError (mkHTTPError _ message _) => message
  | ofApiError v => rest.Message v
  | errorString text => text
  end.

(** [StaticDirectoryHandler] is similar to [echo.StaticDirectoryHandler]
    but without the directory redirect. *)
Definition StaticDirectoryHandler (fileSystem : fs.FS)
  (disablePathUnescaping : bool) : echo.HandlerFunc :=
  fun s =>
    let '(app, c) := s in
    let p := echo.pathParam c in
    let '(p, err) :=
      if negb disablePathUnescaping then url.PathUnescape p else (p, None) in
    match err with
    | Some e =>
        (s, Some (errorString ("failed to unescape path variable: " +:+ Error e)))
    | None =>
        let name :=
          filepath.ToSlash (filepath.Clean (strings.TrimPrefix p "/")) in
        let '(c', ret) := echo.FileFS c name fileSystem in
        ((app, c'), ret)
    end.

(** The cache key of the admin count. *)
Definition totalAdminsCacheKey : string := "totalAdmins".

(** [updateTotalAdminsCache] stores the admin count of the store in the
    cache, unless the count query fails. *)
Definition updateTotalAdminsCache (app : App) : App * option error :=
  let '(total, err) := daos.TotalAdmins (Dao app) in
  match err with
  | Some e => (app, Some e)
  | None =>
      (setCache app (store.Set' (Cache app) totalAdminsCacheKey (Int total)),
       None)
  end.

(** The middleware [installerRedirect] returns. *)
Definition installerRedirectFunc (s : echo.State) : echo.Step :=
  let '(app, c) := s in
  (* load into cache (if not already) *)
  let '(app, err) :=
    if negb (store.Has (Cache app) totalAdminsCacheKey)
    then updateTotalAdminsCache app
    else (app, None) in
  match err with
  | Some e => echo.Return (app, c) (Some e)
  | None =>
      let totalAdmins := cast.ToInt (store.Get (Cache app) totalAdminsCacheKey) in
      let hasInstallerParam :=
        bool_decide (is_Some (echo.Query (echo.request c) !! "installer")) in
      if (totalAdmins =? 0) && negb hasInstallerParam then
        (* redirect to the installer page *)
        let '(c', ret) :=
          echo.Redirect c http.StatusTemporaryRedirect "/_/?installer#" in
        echo.Return (app, c') ret
      else if negb (totalAdmins =? 0) && hasInstallerParam then
        (* redirect to the home page *)
        let '(c', ret) :=
          echo.Redirect c http.StatusTemporaryRedirect "/_/#/" in
        echo.Return (app, c') ret
      else echo.Next (app, c)
  end.

(** [installerRedirect] registers the two hooks that keep the cached
    total up to date and returns the middleware. *)
Definition installerRedirect (hooks : core.Hooks)
  : core.Hooks * echo.MiddlewareFunc :=
  (core.mkHooks
     (core.OnBeforeServe hooks)
     (core.OnAdminAfterCreateRequest hooks ++ [updateTotalAdminsCache])%list
     (core.OnAdminAfterDeleteRequest hooks ++ [updateTotalAdminsCache])%list,
   echo.mkMiddleware "installerRedirect" installerRedirectFunc).

(** A middleware of another package under its name. *)
Definition named (label : string) (f : echo.State -> echo.Step)
  : echo.MiddlewareFunc :=
  echo.mkMiddleware label f.

(** [bindStaticAdminUI] registers the endpoints that serve the admin UI. *)
Definition bindStaticAdminUI (pkg : Packages) (hooks : core.Hooks)
  (e : echo.Echo) : core.Hooks * echo.Echo :=
  let '(hooks, redirect) := installerRedirect hooks in
  (* serves /ui/dist/index.html file *)
  let e :=
    echo.GET e "/_"
      (fun s =>
         let '(c', ret) := echo.FileFS (snd s) "index.html" (DistIndexHTML pkg) in
         ((fst s, c'), ret))
      [named "Gzip" (Gzip pkg); redirect] in
  (* serves static files from the /ui/dist directory *)
  let e :=
    echo.GET e "/_/*" (StaticDirectoryHandler (DistDirFS pkg) false)
      [named "Gzip" (Gzip pkg)] in
  (hooks, e).

(** [InitApi] creates a configured echo instance with registered system
    and app specific routes and middlewares. *)
Definition InitApi (pkg : Packages) (app : App) (hooks : core.Hooks)
  : (App * core.Hooks) * (option echo.Echo * option error) :=
  let e := echo.New in
  let e := echo.setDebug e (IsDebug app) in
  (* default middlewares *)
  let e := echo.Pre e (named "RemoveTrailingSlash" (RemoveTrailingSlash pkg)) in
  let e := echo.Use e (named "Recover" (Recover pkg)) in
  let e := echo.Use e (named "Secure" (Secure pkg)) in
  let e := echo.Use e (LoadAuthContext pkg) in
  (* custom error handler *)
  let e := echo.setHTTPErrorHandler e HTTPErrorHandler in
  (* admin ui routes *)
  let '(hooks, e) := bindStaticAdminUI pkg hooks e in
  (* default routes *)
  let e :=
    List.fold_left echo.Add
      (SettingsApi pkg ++ AdminApi pkg ++ UserApi pkg ++ CollectionApi pkg ++
       RecordApi pkg ++ FileApi pkg ++ RealtimeApi pkg ++ LogsApi pkg)%list e in
  (* trigger the custom BeforeServe hook for the created api router *)
  match
    hook.Trigger (List.map core.onServeEvent (core.OnBeforeServe hooks)) (app, e)
  with
  | ((app, _), Some err) => ((app, hooks), (None, Some err))
  | ((app, e), None) =>
      (* catch all any route *)
      let e :=
        echo.Add e
          (echo.mkRoute None "/api/*" (fun s => (s, Some echo.ErrNotFound))
             [named "ActivityLogger" (ActivityLogger pkg)]) in
      ((app, hooks), (Some e, None))
  end.

(** ** Notions the properties are stated with *)

(** The admin count the store holds. *)
Definition adminCount (app : App) : Z :=
  Z.of_nat (List.length (daos.admins (Dao app))).

(** Once the create hooks that [installerRedirect]
    leaves behind have run on [app], the cache entry is the admin count of
    the store. *)
Definition cacheFollowsCreate (hooks : core.Hooks) (app : App) : Prop :=
  let hooks' := fst (installerRedirect hooks) in
  let app' := fst (hook.Trigger (core.OnAdminAfterCreateRequest hooks') app) in
  Cache app' !! totalAdminsCacheKey = Some (Int (adminCount app')).

(** The response the error handler leaves is a server error. *)
Definition failsWithServerError (s : echo.State) (err : error) : Prop :=
  http.isServerError
    (echo.Status (echo.response (snd (HTTPErrorHandler s (Some err))))) = true.

(** The context after [c.Redirect] with the temporary redirect status. *)
Definition redirected (c : echo.Context) (url : string) : echo.Context :=
  echo.setResponse c
    (echo.mkResponse true http.StatusTemporaryRedirect (Some url) echo.NoBody).

(** The file name [StaticDirectoryHandler] makes of the path [p] it holds
    once the path variable is unescaped. *)
Definition openedName (p : string) : string :=
  filepath.ToSlash (filepath.Clean (strings.TrimPrefix p "/")).

(** The file name made of [p] is relative: it does not begin with a slash. *)
Definition nameIsRelative (p : string) : Prop :=
  strings.HasPrefix (openedName p) "/" = false.

(** A credential the propagator degrades to the guest identity: none at
    all, or a token the verifier finds malformed, invalid or expired. *)
Definition degraded (verify : string -> Verdict) (cred : Credential) : Prop :=
  match cred with
  | Absent => True
  | Token raw =>
      match verify raw with
      | Valid _ _ => False
      | _ => True
      end
  end.


(** The state [LoadAuthContext] hands to the next handler. *)
Definition loaded (pkg : Packages) (s : echo.State) : echo.State :=
  (fst s,
   echo.setAuthContext (snd s)
     (loadAuthContext (verify pkg) (Dao (fst s))
        (echo.Authorization (echo.request (snd s))))).




(** An element that can open a relative path: not empty, no leading slash. *)
Definition plain (e : string) : Prop :=
  match e with
  | "" => False
  | String a _ => a <> "/"%char
  end.



(** ** The scenarios of the specification, and a small installation *)

Module scenario.
Definition forAll (o : CmpOp) : Operator := mkOperator o false.
Definition forAny (o : CmpOp) : Operator := mkOperator o true.

(** [published = true || @request.auth.id = author] *)
Definition published : AST :=
  Comparison (forAll OpEq) (Identifier ["published"]) (Lit (LBool true)).
Definition authored : AST :=
  Comparison (forAll OpEq) (Identifier ["@request"; "auth"; "id"])
    (Identifier ["author"]).
Definition viewRuleOfPosts : AST := Logical LOr published authored.

(** [tags ?= 'draft'] *)
Definition tagged : AST :=
  Comparison (forAny OpEq) (Identifier ["tags"]) (Lit (LString "draft")).

Definition users : Collection :=
  mkCollection "users" TAuth [] None None None None None.

Definition posts : Collection :=
  mkCollection "posts" TBase
    [mkField "published" DBool false None;
     mkField "author" DRelation true (Some "users");
     mkField "tags" DRelation false (Some "tags");
     mkField "title" DText false None]
    None (Some viewRuleOfPosts) None None None.

Definition u1 : Record' :=
  mkRecord "users" "u1" "2022-07-01 10:00:00" "2022-07-01 10:00:00" ∅.

(** An unpublished post of [u1] with the given tags. *)
Definition post (tags : list string) : Record' :=
  mkRecord "posts" "p1" "2022-07-02 10:00:00" "2022-07-02 10:00:00"
    (<["published" := VBool false]>
       (<["author" := VRelation ["u1"]]>
          (<["tags" := VRelation tags]>
             (<["title" := VText "Hello"]> ∅)))).

Definition dao : daos.Dao :=
  daos.mkDao ["root"] [users; posts] [u1; post []] None.

Definition asGuest : Context :=
  mkContext guestContext (mkRequestContext "GET" ∅ ∅).

Definition asUser : Context :=
  mkContext (mkAuthContext user (Some u1) ∅) (mkRequestContext "GET" ∅ ∅).

Definition asAdmin : Context :=
  mkContext (mkAuthContext admin None ∅) (mkRequestContext "DELETE" ∅ ∅).

Definition verifier (raw : string) : Verdict :=
  if String.eqb raw "token of u1" then Valid "u1" ∅
  else if String.eqb raw "token of root" then Valid "root" ∅
  else if String.eqb raw "old token of u1" then Expired
  else if String.eqb raw "Bearer" then Malformed
  else Invalid.

Definition packages : Packages :=
  mkPackages verifier echo.Next echo.Next echo.Next echo.Next echo.Next
    [] [] [] [] [] [] [] []
    {["index.html" := fs.File "<html>"]}
    (<["index.html" := fs.File "<html>"]>
       {["assets/app.js" := fs.File "import"]}).

Definition app : App := mkApp false dao ∅ [].

Definition hooks : core.Hooks := core.mkHooks [] [] [].

(** The instance [InitApi] returns for the installation. *)
Definition api : echo.Echo :=
  match snd (InitApi packages app hooks) with
  | (Some e, _) => e
  | _ => echo.New
  end.

(** A pattern against a path: equal up to a final [*], which takes the
    rest. *)
Fixpoint matchPath (pattern path : string) : option string :=
  match pattern with
  | "" => if String.eqb path "" then Some "" else None
  | String a pattern' =>
      if String.eqb pattern "*" then Some path
      else
        match path with
        | "" => None
        | String b path' =>
            if Ascii.eqb a b then matchPath pattern' path' else None
        end
  end.

Definition notFound : echo.Route :=
  echo.mkRoute None "" (fun s => (s, Some echo.ErrNotFound)) [].

(** A router: the first registered route whose pattern matches. *)
Fixpoint find (routes : list echo.Route) (r : echo.Request)
  : echo.Route * string :=
  match routes with
  | [] => (notFound, "")
  | route :: rest =>
      match matchPath (echo.routePath route) (echo.Path r) with
      | Some p => (route, p)
      | None => find rest r
      end
  end.

(** A GET request for [path] with the credential [cred]. *)
Definition get (path : string) (cred : Credential) : echo.Context :=
  echo.mkContext (echo.mkRequest "GET" path ∅ cred)
    (echo.mkResponse false 0 None echo.NoBody) "" None None.
End scenario.

(** ** Further notions *)

(** The status the error handler answers an error with. *)
Definition statusOf (err : option error) : Z :=
  match err with
  | Some (ofHTTPError (mkHTTPError code _ _)) => code
  | Some (ofApiError v) => rest.Code v
  | _ => http.StatusBadRequest
  end.

(** [app'] is [app] but for what was logged and the cached admin count. *)
Definition sameButCount (app app' : App) : Prop :=
  IsDebug app' = IsDebug app /\ Dao app' = Dao app /\ Log app' = Log app /\
  forall k, k <> totalAdminsCacheKey -> Cache app' !! k = Cache app !! k.

(** The index page of the directory [d] of a file system. *)
Definition indexOf (d : string) : string :=
  if String.eqb d "." then echo.indexPage else d +:+ "/" +:+ echo.indexPage.

(** No byte of [s] is a percent sign. *)
Fixpoint noPercent (s : string) : bool :=
  match s with
  | "" => true
  | String c r => negb (Ascii.eqb c "%") && noPercent r
  end.

(** What follows a percent sign is no pair of hexadecimal digits. *)
Definition badEscape (rest : string) : bool :=
  match rest with
  | String h (String l _) => negb (url.ishex h && url.ishex l)
  | _ => true
  end.

(** The routes the [Bind...Api] functions register, in the order [InitApi]
    calls them. *)
Definition apiRoutes (pkg : Packages) : list echo.Route :=
  (SettingsApi pkg ++ AdminApi pkg ++ UserApi pkg ++ CollectionApi pkg ++
   RecordApi pkg ++ FileApi pkg ++ RealtimeApi pkg ++ LogsApi pkg)%list.

(** The two routes [bindStaticAdminUI] registers. *)
Definition uiRoutes (pkg : Packages) (hooks : core.Hooks) : list echo.Route :=
  echo.routes (snd (bindStaticAdminUI pkg hooks echo.New)).

(** The catch all route [InitApi] registers last. *)
Definition catchAll (pkg : Packages) : echo.Route :=
  echo.mkRoute None "/api/*" (fun s => (s, Some echo.ErrNotFound))
    [named "ActivityLogger" (ActivityLogger pkg)].

(** [e'] is [e] with more pre middlewares, middlewares and routes
    registered after those of [e]. *)
Definition extends (e e' : echo.Echo) : Prop :=
  echo.Debug e' = echo.Debug e /\
  echo.HTTPErrorHandler e' = echo.HTTPErrorHandler e /\
  (exists x, echo.premiddleware e' = (echo.premiddleware e ++ x)%list) /\
  (exists x, echo.middleware e' = (echo.middleware e ++ x)%list) /\
  (exists x, echo.routes e' = (echo.routes e ++ x)%list).

(** * Properties *)

(** ** The admin counter cache *)

Lemma updateTotalAdminsCache_failure (app : App) (e : error) :
  daos.failure (Dao app) = Some e ->
  updateTotalAdminsCache app = (app, Some e).
Proof.
  intros Hf. unfold updateTotalAdminsCache, daos.TotalAdmins.
  now rewrite Hf.
Qed.

Lemma updateTotalAdminsCache_success (app : App) :
  daos.failure (Dao app) = None ->
  updateTotalAdminsCache app =
    (setCache app
       (<[totalAdminsCacheKey :=
            Int (Z.of_nat (List.length (daos.admins (Dao app))))]> (Cache app)),
     None).
Proof.
  intros Hf. unfold updateTotalAdminsCache, daos.TotalAdmins.
  now rewrite Hf.
Qed.

(** C9: [updateTotalAdminsCache] is atomic on error.  When the TotalAdmins
    query fails the function returns that very error and the application
    state, the cache included, is the one it started from; when the query
    succeeds it returns no error and the cache differs from the old one in
    the totalAdmins key only, which then holds the queried value. *)
Theorem updateTotalAdminsCache_atomic (app : App) :
  let '(total, err) := daos.TotalAdmins (Dao app) in
  let '(app', ret) := updateTotalAdminsCache app in
  match err with
  | Some e => ret = Some e /\ app' = app
  | None =>
      ret = None /\
      Cache app' !! totalAdminsCacheKey = Some (Int total) /\
      (forall k, k <> totalAdminsCacheKey -> Cache app' !! k = Cache app !! k) /\
      Dao app' = Dao app /\ IsDebug app' = IsDebug app /\ Log app' = Log app
  end.
Proof.
  unfold updateTotalAdminsCache.
  destruct (daos.TotalAdmins (Dao app)) as [total [e|]]; simpl.
  - split; reflexivity.
  - repeat split.
    + unfold store.Set'. apply lookup_insert_eq.
    + intros k Hk. unfold store.Set'. now apply lookup_insert_ne.
Qed.

(** ** Hooks *)

Lemma Trigger_app {A : Type} (hs1 hs2 : list (A -> A * option error)) (a : A) :
  hook.Trigger (hs1 ++ hs2) a =
    match hook.Trigger hs1 a with
    | (a', Some e) => (a', Some e)
    | (a', None) => hook.Trigger hs2 a'
    end.
Proof.
  revert a. induction hs1 as [|h hs1 IH]; intros a; simpl.
  - reflexivity.
  - destruct (h a) as [a' [e|]]; [reflexivity | apply IH].
Qed.

(** C5, counterexample: an admin was created while the cache held 0 and
    the count query fails when the hook runs: the entry stays 0 with one
    admin in the store.  And the entry is not written by hooks only: the
    middleware fills an empty cache on its first request with no hook
    fired. *)
Lemma cacheFollowsCreate_counterexample :
  let locked := Some (errorString "database is locked") in
  let app := mkApp false (daos.mkDao ["root"] [] [] locked)
               {[totalAdminsCacheKey := Int 0]} [] in
  let fresh := mkApp false (daos.mkDao ["root"] [] [] None) ∅ [] in
  let c := echo.mkContext (echo.mkRequest "GET" "/_" ∅ Absent)
             (echo.mkResponse false 0 None echo.NoBody) "" None None in
  ~ cacheFollowsCreate (core.mkHooks [] [] []) app /\
  installerRedirectFunc (fresh, c) =
    echo.Next (setCache fresh {[totalAdminsCacheKey := Int 1]}, c).
Proof.
  split.
  - unfold cacheFollowsCreate. simpl. rewrite lookup_singleton_eq.
    unfold adminCount. simpl. intros H. discriminate H.
  - vm_compute. reflexivity.
Qed.

(** C5, amended: [installerRedirect] appends one handler to the admin
    create hook and one to the admin delete hook and leaves the other
    handlers alone.  When either hook fires and the handlers registered
    before return no error, the run ends as [updateTotalAdminsCache] does
    on the state they leave: if the count query succeeds the cache entry
    is the admin count of the store, if it fails the error is returned and
    the cache is untouched. *)
Theorem installerRedirect_hooks (hooks : core.Hooks) (app app1 : App) :
  let hooks' := fst (installerRedirect hooks) in
  hook.Trigger (core.OnAdminAfterCreateRequest hooks) app = (app1, None) ->
  core.OnBeforeServe hooks' = core.OnBeforeServe hooks /\
  core.OnAdminAfterCreateRequest hooks' =
    (core.OnAdminAfterCreateRequest hooks ++ [updateTotalAdminsCache])%list /\
  core.OnAdminAfterDeleteRequest hooks' =
    (core.OnAdminAfterDeleteRequest hooks ++ [updateTotalAdminsCache])%list /\
  hook.Trigger (core.OnAdminAfterCreateRequest hooks') app =
    updateTotalAdminsCache app1 /\
  (hook.Trigger (core.OnAdminAfterDeleteRequest hooks) app = (app1, None) ->
   hook.Trigger (core.OnAdminAfterDeleteRequest hooks') app =
     updateTotalAdminsCache app1) /\
  match daos.failure (Dao app1) with
  | None =>
      exists app2, updateTotalAdminsCache app1 = (app2, None) /\
        Cache app2 !! totalAdminsCacheKey = Some (Int (adminCount app2))
  | Some e => updateTotalAdminsCache app1 = (app1, Some e)
  end.
Proof.
  intros hooks' Hc. subst hooks'. simpl.
  repeat split.
  - rewrite Trigger_app, Hc. simpl.
    destruct (updateTotalAdminsCache app1) as [a [e|]]; reflexivity.
  - intros Hd. rewrite Trigger_app, Hd. simpl.
    destruct (updateTotalAdminsCache app1) as [a [e|]]; reflexivity.
  - destruct (daos.failure (Dao app1)) as [e|] eqn:Hf.
    + now apply updateTotalAdminsCache_failure.
    + eexists. split; [now apply updateTotalAdminsCache_success|].
      simpl. apply lookup_insert_eq.
Qed.

(** An instance: two admins in a store that answers, no handler
    registered before. *)
Lemma installerRedirect_hooks_witness :
  let app := mkApp false (daos.mkDao ["root"; "second"] [] [] None) ∅ [] in
  hook.Trigger (core.OnAdminAfterCreateRequest (core.mkHooks [] [] [])) app =
    (app, None) /\
  exists app2,
    updateTotalAdminsCache app = (app2, None) /\
    Cache app2 !! totalAdminsCacheKey = Some (Int (adminCount app2)).
Proof.
  intros app. split; [reflexivity|].
  exact (proj2 (proj2 (proj2 (proj2 (proj2
    (installerRedirect_hooks (core.mkHooks [] [] []) app app eq_refl)))))).
Defined.

(** ** The installer redirect *)

(** C10: with the cached total present, the middleware answers with a
    temporary redirect (307) to the installer page when the total is 0 and
    the query has no installer key, with a temporary redirect to the home
    page when the total is not 0 and the query has the key, and hands the
    unchanged state to the wrapped handler in every other case. *)
Theorem installerRedirect_cases (hooks : core.Hooks) (app : App)
  (c : echo.Context) :
  let redirect := snd (installerRedirect hooks) in
  let totalAdmins := cast.ToInt (store.Get (Cache app) totalAdminsCacheKey) in
  let installer := echo.Query (echo.request c) !! "installer" in
  store.Has (Cache app) totalAdminsCacheKey = true ->
  http.StatusTemporaryRedirect = 307 /\
  (totalAdmins = 0 -> installer = None ->
   echo.run redirect (app, c) =
     echo.Return (app, redirected c "/_/?installer#") None) /\
  (totalAdmins <> 0 -> is_Some installer ->
   echo.run redirect (app, c) = echo.Return (app, redirected c "/_/#/") None) /\
  ((totalAdmins = 0 /\ is_Some installer) \/
   (totalAdmins <> 0 /\ installer = None) ->
   echo.run redirect (app, c) = echo.Next (app, c) /\
   forall h : echo.Traced,
     snd (echo.applyMiddleware h [redirect] (app, c)) = snd (h (app, c))).
Proof.
  intros redirect totalAdmins installer Hhas.
  assert (Hrun : echo.run redirect (app, c) =
    if (totalAdmins =? 0) && negb (bool_decide (is_Some installer))
    then echo.Return (app, redirected c "/_/?installer#") None
    else if negb (totalAdmins =? 0) && bool_decide (is_Some installer)
         then echo.Return (app, redirected c "/_/#/") None
         else echo.Next (app, c)).
  { subst redirect. simpl. unfold installerRedirectFunc. rewrite Hhas. simpl.
    reflexivity. }
  split; [reflexivity|].
  split; [|split].
  - intros H0 Hn. rewrite Hrun.
    apply Z.eqb_eq in H0. rewrite H0, Hn.
    rewrite bool_decide_eq_false_2 by (intros [x Hx]; discriminate Hx).
    reflexivity.
  - intros H0 Hs. rewrite Hrun.
    apply Z.eqb_neq in H0. rewrite H0.
    rewrite bool_decide_eq_true_2 by exact Hs. reflexivity.
  - intros Hcase.
    assert (Hnext : echo.run redirect (app, c) = echo.Next (app, c)).
    { rewrite Hrun. destruct Hcase as [[H0 Hs] | [H0 Hn]].
      - apply Z.eqb_eq in H0. rewrite H0.
        rewrite bool_decide_eq_true_2 by exact Hs. reflexivity.
      - apply Z.eqb_neq in H0. rewrite H0, Hn.
        rewrite bool_decide_eq_false_2 by (intros [x Hx]; discriminate Hx).
        reflexivity. }
    split; [exact Hnext|].
    intros h. cbn [echo.applyMiddleware]. rewrite Hnext.
    destruct (h (app, c)) as [t r]. reflexivity.
Qed.

(** An instance: no admin yet and a request without the installer key. *)
Lemma installerRedirect_cases_witness :
  let app := mkApp false (daos.mkDao [] [] [] None)
               {[totalAdminsCacheKey := Int 0]} [] in
  let c := echo.mkContext (echo.mkRequest "GET" "/_" ∅ Absent)
             (echo.mkResponse false 0 None echo.NoBody) "" None None in
  store.Has (Cache app) totalAdminsCacheKey = true /\
  echo.run (snd (installerRedirect (core.mkHooks [] [] []))) (app, c) =
    echo.Return (app, redirected c "/_/?installer#") None.
Proof.
  intros app c.
  assert (Hhas : store.Has (Cache app) totalAdminsCacheKey = true)
    by (vm_compute; reflexivity).
  split; [exact Hhas|].
  refine (proj1 (proj2
    (installerRedirect_cases (core.mkHooks [] [] []) app c Hhas)) _ _).
  - vm_compute. reflexivity.
  - vm_compute. reflexivity.
Defined.

(** ** The error handler *)

(** C1, counterexample: a storage failure that reaches the handler as a
    plain error is answered with status 400, which is no server error. *)
Lemma failsWithServerError_counterexample :
  let app := mkApp false (daos.mkDao [] [] [] None) ∅ [] in
  let c := echo.mkContext (echo.mkRequest "GET" "/_" ∅ Absent)
             (echo.mkResponse false 0 None echo.NoBody) "" None None in
  ~ failsWithServerError (app, c) (errorString "sql: connection is closed").
Proof.
  intros app c H. unfold failsWithServerError in H.
  vm_compute in H. discriminate H.
Qed.

(** C1, amended: for every error that is neither an [*echo.HTTPError] nor
    a [*rest.ApiError], and every response not yet committed, the handler
    commits a response with status 400, bad request, which is not a server
    error: the bad request [ApiError] as JSON, or no body for a HEAD
    request or when the body cannot be written.  Nothing but the log
    changes in the application. *)
Theorem HTTPErrorHandler_default (app : App) (c : echo.Context) (err : error) :
  (forall v, err <> ofHTTPError v) ->
  (forall v, err <> ofApiError v) ->
  echo.Committed (echo.response c) = false ->
  let '(app', c') := HTTPErrorHandler (app, c) (Some err) in
  echo.Committed (echo.response c') = true /\
  echo.Status (echo.response c') = http.StatusBadRequest /\
  http.isServerError (echo.Status (echo.response c')) = false /\
  echo.Payload (echo.response c') =
    (if String.eqb (echo.Method (echo.request c)) http.MethodHead
     then echo.NoBody
     else match echo.writeError c with
          | Some _ => echo.NoBody
          | None => echo.JSONBody (rest.NewBadRequestError "" (Some err))
          end) /\
  Dao app' = Dao app /\ Cache app' = Cache app.
Proof.
  intros Hh Ha Hc.
  destruct err as [v | v | text].
  - now destruct (Hh v).
  - now destruct (Ha v).
  - unfold HTTPErrorHandler. rewrite Hc.
    destruct app as [dbg dao cache log]. simpl.
    destruct (String.eqb (echo.Method (echo.request c)) http.MethodHead); simpl.
    + destruct dbg; simpl; repeat split; reflexivity.
    + unfold echo.JSON. destruct (echo.writeError c) as [w|]; simpl;
        destruct dbg; simpl; repeat split; reflexivity.
Qed.

(** An instance: a closed database connection reported in debug mode. *)
Lemma HTTPErrorHandler_default_witness :
  let app := mkApp true (daos.mkDao [] [] [] None) ∅ [] in
  let c := echo.mkContext (echo.mkRequest "GET" "/_" ∅ Absent)
             (echo.mkResponse false 0 None echo.NoBody) "" None None in
  let err := errorString "sql: connection is closed" in
  echo.Committed (echo.response c) = false /\
  echo.Status (echo.response (snd (HTTPErrorHandler (app, c) (Some err)))) = 400.
Proof.
  intros app c err. split; [reflexivity|].
  pose proof (HTTPErrorHandler_default app c err
                ltac:(intros v H; discriminate H)
                ltac:(intros v H; discriminate H)
                eq_refl) as H.
  destruct (HTTPErrorHandler (app, c) (Some err)) as [app' c'].
  exact (proj1 (proj2 H)).
Defined.

(** ** Path cleaning and the static directory handler *)

Lemma HasPrefix_slash (s : string) :
  strings.HasPrefix s "/" = true <-> exists r, s = String "/" r.
Proof.
  destruct s as [|a r]; cbn [strings.HasPrefix].
  - split; [discriminate | intros [r H]; discriminate H].
  - destruct (Ascii.eqb_spec "/" a) as [<- | Hne]; cbn [andb].
    + split; [eauto | reflexivity].
    + split; [discriminate|]. intros [r' H]. inversion H. congruence.
Qed.

Lemma substring_all (s : string) :
  String.substring 0 (String.length s) s = s.
Proof. induction s as [|a s IH]; simpl; [reflexivity | now rewrite IH]. Qed.

Lemma TrimPrefix_slash (r : string) :
  strings.TrimPrefix (String "/" r) "/" = r.
Proof.
  unfold strings.TrimPrefix. cbn [strings.HasPrefix].
  rewrite Ascii.eqb_refl. cbn [andb String.length String.substring Nat.sub].
  rewrite Nat.sub_0_r. apply substring_all.
Qed.

Lemma TrimPrefix_other (s : string) :
  strings.HasPrefix s "/" = false -> strings.TrimPrefix s "/" = s.
Proof. intros H. unfold strings.TrimPrefix. now rewrite H. Qed.

(** Only the first of two leading slashes is trimmed. *)
Lemma TrimPrefix_rooted (p : string) :
  strings.HasPrefix (strings.TrimPrefix p "/") "/" = strings.HasPrefix p "//".
Proof.
  destruct (strings.HasPrefix p "/") eqn:Hp.
  - apply HasPrefix_slash in Hp as [r ->]. rewrite TrimPrefix_slash.
    cbn [strings.HasPrefix]. rewrite Ascii.eqb_refl. reflexivity.
  - rewrite TrimPrefix_other by exact Hp. rewrite Hp.
    destruct p as [|a r]; [reflexivity|].
    cbn [strings.HasPrefix andb] in *.
    destruct (Ascii.eqb "/" a); [discriminate Hp | reflexivity].
Qed.

Lemma SplitSlash_elements (s : string) :
  Forall (fun e => e = "" \/ plain e) (strings.SplitSlash s).
Proof.
  induction s as [|a s IH]; simpl.
  - repeat constructor.
  - destruct (Ascii.eqb a "/") eqn:Ha.
    + constructor; [now left | exact IH].
    + apply Ascii.eqb_neq in Ha.
      destruct (strings.SplitSlash s) as [|e es].
      * constructor; [right; exact Ha | constructor].
      * inversion IH; subst. constructor; [right; exact Ha | assumption].
Qed.

Lemma step_plain (rooted : bool) (out : list string) (elem : string) :
  Forall plain out -> elem = "" \/ plain elem ->
  Forall plain (filepath.step rooted out elem).
Proof.
  intros Hout Helem. unfold filepath.step.
  destruct (String.eqb elem "") eqn:He; [exact Hout|].
  destruct (String.eqb elem ".") eqn:Hd; [exact Hout|].
  destruct (String.eqb elem "..") eqn:Hdd.
  - destruct (filepath.canBacktrack out).
    + destruct out; [constructor | now inversion Hout].
    + destruct rooted; [exact Hout|].
      constructor; [|exact Hout]. simpl. discriminate.
  - constructor; [|exact Hout].
    destruct Helem as [-> | H]; [discriminate He | exact H].
Qed.

Lemma fold_step_plain (rooted : bool) (elems out : list string) :
  Forall (fun e => e = "" \/ plain e) elems -> Forall plain out ->
  Forall plain (List.fold_left (filepath.step rooted) elems out).
Proof.
  revert out. induction elems as [|e elems IH]; intros out He Hout; simpl.
  - exact Hout.
  - inversion He; subst. apply IH; [assumption|].
    now apply step_plain.
Qed.

Lemma concat_plain (x : string) (xs : list string) :
  plain x -> strings.HasPrefix (String.concat "/" (x :: xs)) "/" = false.
Proof.
  intros Hx. destruct x as [|a x]; [destruct Hx|]. simpl in Hx.
  assert (Ha : Ascii.eqb "/" a = false) by (apply Ascii.eqb_neq; congruence).
  destruct xs as [|y ys];
    [|change (String.concat "/" (String a x :: y :: ys))
        with (String a (x +:+ "/" +:+ String.concat "/" (y :: ys)))];
    cbn [String.concat strings.HasPrefix]; now rewrite Ha.
Qed.

(** [Clean] keeps a path rooted or relative as it found it. *)
Lemma Clean_rooted (s : string) :
  strings.HasPrefix (filepath.Clean s) "/" = strings.HasPrefix s "/".
Proof.
  unfold filepath.Clean.
  destruct (String.eqb s "") eqn:Hs.
  - apply String.eqb_eq in Hs. subst s. reflexivity.
  - destruct (strings.HasPrefix s "/") eqn:Hr.
    + reflexivity.
    + pose proof (fold_step_plain false (strings.SplitSlash s) []
                    (SplitSlash_elements s) ltac:(constructor)) as Hout.
      destruct (List.fold_left (filepath.step false) (strings.SplitSlash s) [])
        as [|o out] eqn:Ho; [reflexivity|].
      apply Forall_rev in Hout.
      destruct (List.rev (o :: out)) as [|x xs] eqn:Hrev.
      * apply (f_equal (@List.length string)) in Hrev.
        rewrite List.length_rev in Hrev. discriminate Hrev.
      * inversion Hout; subst. now apply concat_plain.
Qed.

(** The name begins with a slash exactly when the path begins with two. *)
Lemma openedName_rooted (p : string) :
  strings.HasPrefix (openedName p) "/" = strings.HasPrefix p "//".
Proof.
  unfold openedName, filepath.ToSlash.
  rewrite Clean_rooted. apply TrimPrefix_rooted.
Qed.

Lemma ValidPath_rooted (name : string) :
  strings.HasPrefix name "/" = true -> fs.ValidPath name = false.
Proof.
  intros H. apply HasPrefix_slash in H as [r ->].
  unfold fs.ValidPath. simpl. apply andb_false_r.
Qed.

Lemma ValidPath_dotdot (name : string) :
  List.hd_error (strings.SplitSlash name) = Some ".." ->
  fs.ValidPath name = false.
Proof.
  intros H. unfold fs.ValidPath.
  destruct (String.eqb name ".") eqn:Hd.
  - apply String.eqb_eq in Hd. subst name. discriminate H.
  - destruct (strings.SplitSlash name) as [|e es]; [discriminate H|].
    simpl in H. inversion H; subst. simpl. apply andb_false_r.
Qed.

(** What a valid path is made of. *)
Lemma ValidPath_elements (name : string) :
  fs.ValidPath name = true ->
  strings.HasPrefix name "/" = false /\
  ~ In ".." (strings.SplitSlash name).
Proof.
  intros H. split.
  - destruct (strings.HasPrefix name "/") eqn:Hp; [|reflexivity].
    apply ValidPath_rooted in Hp. congruence.
  - unfold fs.ValidPath in H. apply andb_true_iff in H as [_ H].
    apply orb_true_iff in H as [H | H].
    + apply String.eqb_eq in H. subst name. simpl. intros [H | []].
      discriminate H.
    + rewrite forallb_forall in H. intros Hin. apply H in Hin.
      discriminate Hin.
Qed.

Lemma Open_file (fsys : fs.FS) (name content : string) :
  fs.Open fsys name = Some (fs.File content) ->
  fs.ValidPath name = true /\ fsys !! name = Some (fs.File content).
Proof.
  unfold fs.Open. destruct (fs.ValidPath name); [|discriminate].
  destruct (String.eqb name "."); [discriminate|]. now split.
Qed.

Lemma FileFS_invalid (c : echo.Context) (name : string) (fsys : fs.FS) :
  fs.ValidPath name = false ->
  echo.FileFS c name fsys = (c, Some echo.ErrNotFound).
Proof. intros H. unfold echo.FileFS, fs.Open. now rewrite H. Qed.

Lemma FileFS_served (c c' : echo.Context) (name : string) (fsys : fs.FS) :
  echo.FileFS c name fsys = (c', None) ->
  exists key content,
    (key = name \/ key = filepath.ToSlash (filepath.Join name echo.indexPage)) /\
    fs.ValidPath key = true /\
    fsys !! key = Some (fs.File content) /\
    echo.Payload (echo.response c') = echo.FileBody content.
Proof.
  unfold echo.FileFS. intros H.
  destruct (fs.Open fsys name) as [[content|]|] eqn:Ho; [| |discriminate H].
  - apply Open_file in Ho as [Hv Hl]. inversion H; subst.
    exists name, content. auto.
  - destruct (fs.Open fsys _) as [[content|]|] eqn:Hi in H;
      [|discriminate H|discriminate H].
    apply Open_file in Hi as [Hv Hl]. inversion H; subst.
    eexists _, content. split; [right; reflexivity|]. auto.
Qed.

(** C8, counterexample: of two leading slashes one survives; the name made
    of the path [//a], which reaches the handler of [/_/*] as the escaped
    [%2F%2Fa], is [/a].  The file system refuses it and the request ends
    in a 404 although [a] exists. *)
Lemma nameIsRelative_counterexample :
  let app := mkApp false (daos.mkDao [] [] [] None) ∅ [] in
  let c := echo.mkContext (echo.mkRequest "GET" "/_" ∅ Absent)
             (echo.mkResponse false 0 None echo.NoBody) "%2F%2Fa" None None in
  ~ nameIsRelative "//a" /\
  openedName "//a" = "/a" /\
  StaticDirectoryHandler {["a" := fs.File "content"]} false (app, c) =
    ((app, c), Some echo.ErrNotFound).
Proof.
  intros app c. split; [|split].
  - unfold nameIsRelative. vm_compute. discriminate.
  - vm_compute. reflexivity.
  - vm_compute. reflexivity.
Qed.

(** C8, amended: for the path [p] the handler holds once the path
    variable is unescaped, the name it passes to [c.FileFS] is exactly
    [filepath.ToSlash(filepath.Clean(strings.TrimPrefix(p, "/")))].  The
    name begins with a slash exactly when [p] begins with two slashes.  A
    name that begins with a slash or whose first element is [..] is
    refused: the handler returns the not found error and leaves the
    response alone.  Whenever the handler returns no error, the content it
    served is that of a file the file system holds under a valid path,
    the name itself or the index page below it, which neither begins with
    a slash nor has a [..] element. *)
Theorem StaticDirectoryHandler_safe (fileSystem : fs.FS)
  (disablePathUnescaping : bool) (app : App) (c : echo.Context) (p : string) :
  (if negb disablePathUnescaping then url.PathUnescape (echo.pathParam c)
   else (echo.pathParam c, None)) = (p, None) ->
  let name := filepath.ToSlash (filepath.Clean (strings.TrimPrefix p "/")) in
  let '(s', ret) :=
    StaticDirectoryHandler fileSystem disablePathUnescaping (app, c) in
  (s', ret) =
    (let '(c', r) := echo.FileFS c name fileSystem in ((app, c'), r)) /\
  strings.HasPrefix name "/" = strings.HasPrefix p "//" /\
  (strings.HasPrefix name "/" = true \/
   List.hd_error (strings.SplitSlash name) = Some ".." ->
   s' = (app, c) /\ ret = Some echo.ErrNotFound) /\
  (ret = None ->
   exists key content,
     (key = name \/ key = filepath.ToSlash (filepath.Join name echo.indexPage)) /\
     fs.ValidPath key = true /\
     strings.HasPrefix key "/" = false /\
     ~ In ".." (strings.SplitSlash key) /\
     fileSystem !! key = Some (fs.File content) /\
     echo.Payload (echo.response (snd s')) = echo.FileBody content).
Proof.
  intros Hp name.
  unfold StaticDirectoryHandler. rewrite Hp. fold name.
  destruct (echo.FileFS c name fileSystem) as [c' r] eqn:Hfs.
  split; [reflexivity|]. split; [apply openedName_rooted|]. split.
  - intros Hbad.
    assert (Hinv : fs.ValidPath name = false).
    { destruct Hbad as [H | H];
        [now apply ValidPath_rooted | now apply ValidPath_dotdot]. }
    rewrite (FileFS_invalid c name fileSystem Hinv) in Hfs.
    inversion Hfs; subst. now split.
  - intros ->. apply FileFS_served in Hfs as (key & content & Hk & Hv & Hl & Hb).
    exists key, content. destruct (ValidPath_elements key Hv) as [Hr Hd].
    repeat split; assumption.
Qed.

(** An instance: a path that climbs out of the root is answered with the
    not found error. *)
Lemma StaticDirectoryHandler_safe_witness :
  let app := mkApp false (daos.mkDao [] [] [] None) ∅ [] in
  let c := echo.mkContext (echo.mkRequest "GET" "/_" ∅ Absent)
             (echo.mkResponse false 0 None echo.NoBody)
             "images/../../secret%2Ftxt" None None in
  let fileSystem : fs.FS := {["secret/txt" := fs.File "content"]} in
  url.PathUnescape (echo.pathParam c) = ("images/../../secret/txt", None) /\
  filepath.Clean "images/../../secret/txt" = "../secret/txt" /\
  StaticDirectoryHandler fileSystem false (app, c) =
    ((app, c), Some echo.ErrNotFound).
Proof.
  intros app c fileSystem.
  assert (Hp : (if negb false then url.PathUnescape (echo.pathParam c)
                else (echo.pathParam c, None)) =
               ("images/../../secret/txt", None))
    by (vm_compute; reflexivity).
  split; [exact Hp|]. split; [vm_compute; reflexivity|].
  pose proof (StaticDirectoryHandler_safe fileSystem false app c _ Hp) as H.
  destruct (StaticDirectoryHandler fileSystem false (app, c)) as [s' ret].
  destruct H as (_ & _ & H & _).
  destruct H as [-> ->]; [right; vm_compute; reflexivity | reflexivity].
Defined.

(** ** The rule resolver and the evaluator *)

(** C2: whatever the collection, its rules, the operation and the record,
    given or not, [canPerform] allows an admin context. *)
Theorem canPerform_admin (d : daos.Dao) (col : Collection) (op : Operation)
  (rec : option Record') (ctx : Context) :
  kind (auth ctx) = admin ->
  canPerform d col op rec ctx = Ok allow.
Proof. intros H. unfold canPerform. now rewrite H. Qed.

(** An instance: an admin deletes from a collection with a delete rule on
    a store that fails. *)
Lemma canPerform_admin_witness :
  let locked := daos.mkDao [] [] [] (Some (errorString "database is locked")) in
  let col := mkCollection "posts" TBase [] None None None None
               (Some (Comparison (mkOperator OpEq false)
                        (Identifier ["owner"; "id"]) (Lit (LString "u1")))) in
  kind (auth scenario.asAdmin) = admin /\
  canPerform locked col opDelete None scenario.asAdmin = Ok allow.
Proof.
  intros locked col. split; [reflexivity|].
  exact (canPerform_admin locked col opDelete None scenario.asAdmin eq_refl).
Defined.

(** C3: on inputs both operands evaluate on, the AND node is the
    conjunction and the OR node the disjunction of the two results. *)
Theorem evaluate_logical (d : daos.Dao) (a b : AST) (rec : option Record')
  (ctx : Context) (x y : bool) :
  evaluate d a rec ctx = Ok x ->
  evaluate d b rec ctx = Ok y ->
  evaluate d (Logical LAnd a b) rec ctx = Ok (x && y) /\
  evaluate d (Logical LOr a b) rec ctx = Ok (x || y).
Proof.
  intros Ha Hb. cbn [evaluate]. rewrite Ha. cbn [bind].
  destruct x; cbn [andb orb]; now rewrite ?Hb.
Qed.











(** ** The auth context middleware and the router *)

Lemma LoadAuthContext_run (pkg : Packages) (s : echo.State) :
  echo.run (LoadAuthContext pkg) s = echo.Next (loaded pkg s).
Proof. destruct s as [app c]. reflexivity. Qed.

Lemma loadAuthContext_degraded (verify : string -> Verdict) (d : daos.Dao)
  (cred : Credential) :
  degraded verify cred -> loadAuthContext verify d cred = guestContext.
Proof.
  unfold degraded, loadAuthContext. destruct cred as [|raw]; [reflexivity|].
  destruct (verify raw); intros H; [reflexivity .. | destruct H].
Qed.

(** C7: for a credential that is absent, or that the verifier finds
    malformed, invalid or expired, the propagator yields the guest
    identity, and the middleware stores it and hands the request to the
    next handler: what the request ends in is what that handler returns. *)
Theorem LoadAuthContext_guest (pkg : Packages) (app : App) (c : echo.Context) :
  let cred := echo.Authorization (echo.request c) in
  degraded (verify pkg) cred ->
  loadAuthContext (verify pkg) (Dao app) cred = guestContext /\
  kind guestContext = guest /\
  echo.run (LoadAuthContext pkg) (app, c) =
    echo.Next (app, echo.setAuthContext c guestContext) /\
  forall h : echo.Traced,
    snd (echo.applyMiddleware h [LoadAuthContext pkg] (app, c)) =
      snd (h (app, echo.setAuthContext c guestContext)).
Proof.
  intros cred Hd.
  pose proof (loadAuthContext_degraded (verify pkg) (Dao app) cred Hd) as Hg.
  assert (Hrun : echo.run (LoadAuthContext pkg) (app, c) =
                 echo.Next (app, echo.setAuthContext c guestContext)).
  { rewrite LoadAuthContext_run. unfold loaded. simpl. fold cred.
    now rewrite Hg. }
  repeat split; [exact Hg | exact Hrun |].
  intros h. cbn [echo.applyMiddleware]. rewrite Hrun.
  now destruct (h (app, echo.setAuthContext c guestContext)).
Qed.













(** ** The scenarios *)

(** Scenario A: a guest is denied the unpublished post of [u1], [u1] is
    allowed. *)
Example scenario_A :
  canPerform scenario.dao scenario.posts opView (Some (scenario.post []))
    scenario.asGuest = Ok deny /\
  canPerform scenario.dao scenario.posts opView (Some (scenario.post []))
    scenario.asUser = Ok allow.
Proof. split; vm_compute; reflexivity. Qed.

(** Scenario C: the any-of operator over a to-many relation. *)
Example scenario_C :
  evaluate scenario.dao scenario.tagged
    (Some (scenario.post ["draft"; "public"])) scenario.asGuest = Ok true /\
  evaluate scenario.dao scenario.tagged
    (Some (scenario.post ["public"])) scenario.asGuest = Ok false.
Proof. split; vm_compute; reflexivity. Qed.

(** A relation that holds no related record: false for the default and for
    the any-of operators. *)
Example empty_relation :
  evaluate scenario.dao
    (Comparison (scenario.forAll OpNeq) (Identifier ["tags"]) (Lit (LString "draft")))
    (Some (scenario.post [])) scenario.asGuest = Ok false /\
  evaluate scenario.dao scenario.tagged
    (Some (scenario.post [])) scenario.asGuest = Ok false.
Proof. split; vm_compute; reflexivity. Qed.

(** An invalid node is a fault, and a failing store is one. *)
Example faults :
  evaluate scenario.dao (Lit (LBool true)) None scenario.asGuest =
    Raise InvalidNode /\
  evaluate (daos.mkDao [] [scenario.users; scenario.posts] []
              (Some (errorString "database is locked")))
    (Comparison (scenario.forAll OpEq) (Identifier ["author"; "id"])
       (Lit (LString "u1")))
    (Some (scenario.post [])) scenario.asGuest =
    Raise (StorageFailure (errorString "database is locked")).
Proof. split; vm_compute; reflexivity. Qed.

(** An instance: the two halves of the view rule of scenario A, for the
    author of the post. *)
Lemma evaluate_logical_witness :
  let rec := Some (scenario.post []) in
  evaluate scenario.dao scenario.published rec scenario.asUser = Ok false /\
  evaluate scenario.dao scenario.authored rec scenario.asUser = Ok true /\
  evaluate scenario.dao (Logical LAnd scenario.published scenario.authored)
    rec scenario.asUser = Ok false /\
  evaluate scenario.dao (Logical LOr scenario.published scenario.authored)
    rec scenario.asUser = Ok true.
Proof.
  intros rec.
  assert (Ha : evaluate scenario.dao scenario.published rec scenario.asUser =
               Ok false) by (vm_compute; reflexivity).
  assert (Hb : evaluate scenario.dao scenario.authored rec scenario.asUser =
               Ok true) by (vm_compute; reflexivity).
  split; [exact Ha|]. split; [exact Hb|].
  exact (evaluate_logical scenario.dao scenario.published scenario.authored
           rec scenario.asUser false true Ha Hb).
Defined.


(** An instance: an expired token. *)
Lemma LoadAuthContext_guest_witness :
  let c := scenario.get "/api/collections" (Token "old token of u1") in
  degraded scenario.verifier (echo.Authorization (echo.request c)) /\
  echo.run (LoadAuthContext scenario.packages) (scenario.app, c) =
    echo.Next (scenario.app, echo.setAuthContext c guestContext).
Proof.
  intros c.
  assert (Hd : degraded scenario.verifier (echo.Authorization (echo.request c)))
    by (vm_compute; exact I).
  split; [exact Hd|].
  exact (proj1 (proj2 (proj2
    (LoadAuthContext_guest scenario.packages scenario.app c Hd)))).
Defined.

(** A valid token of a user and one of an admin are not degraded. *)
Example loadAuthContext_valid :
  kind (loadAuthContext scenario.verifier scenario.dao (Token "token of u1")) =
    user /\
  kind (loadAuthContext scenario.verifier scenario.dao (Token "token of root")) =
    admin.
Proof. split; vm_compute; reflexivity. Qed.


(** The request of the witness is served the file. *)
Example serve_static :
  let s := (scenario.app, scenario.get "/_/assets/app.js" Absent) in
  echo.Payload
    (echo.response (snd (snd (echo.ServeHTTP scenario.find scenario.api s)))) =
    echo.FileBody "import".
Proof. vm_compute. reflexivity. Qed.

(** ** More on the error handler *)

Lemma HTTPErrorHandler_commits (app : App) (c : echo.Context)
  (err : option error) :
  echo.Committed (echo.response c) = false ->
  echo.Committed (echo.response (snd (HTTPErrorHandler (app, c) err))) = true.
Proof.
  intros Hc. unfold HTTPErrorHandler. rewrite Hc.
  destruct err as [[[code message internal] | v | text]|];
    destruct (String.eqb (echo.Method (echo.request c)) http.MethodHead);
    unfold echo.JSON, echo.NoContent;
    destruct (echo.writeError c) as [w|]; reflexivity.
Qed.

(** X1: whatever the error, nil included, on a response not yet committed
    the handler commits the status of the error: the code of an
    [*echo.HTTPError], the code of a [*rest.ApiError], 400 otherwise.  A
    HEAD request gets no body, and a JSON body that is sent carries the
    status as its code.  The request and the stored identity stay. *)
Theorem HTTPErrorHandler_status (app : App) (c : echo.Context)
  (err : option error) :
  echo.Committed (echo.response c) = false ->
  let c' := snd (HTTPErrorHandler (app, c) err) in
  echo.Committed (echo.response c') = true /\
  echo.Status (echo.response c') = statusOf err /\
  (String.eqb (echo.Method (echo.request c)) http.MethodHead = true ->
   echo.Payload (echo.response c') = echo.NoBody) /\
  (forall v, echo.Payload (echo.response c') = echo.JSONBody v ->
             rest.Code v = echo.Status (echo.response c')) /\
  echo.request c' = echo.request c /\
  echo.authContext c' = echo.authContext c /\
  echo.Location (echo.response c') = echo.Location (echo.response c).
Proof.
  intros Hc. unfold HTTPErrorHandler. rewrite Hc.
  destruct app as [dbg dao cache log].
  destruct err as [[[code message internal] | [code message raw] | text]|];
    cbn [statusOf rest.Code rest.NewApiError rest.NewBadRequestError rest.RawData
         IsDebug];
    destruct (String.eqb (echo.Method (echo.request c)) http.MethodHead);
    unfold echo.JSON, echo.NoContent;
    destruct (echo.writeError c) as [w|]; cbn;
    repeat split; try reflexivity; try discriminate;
    intros v Hv; inversion Hv; reflexivity.
Qed.

Lemma HTTPErrorHandler_committed (s : echo.State) (err : option error) :
  echo.Committed (echo.response (snd s)) = true -> HTTPErrorHandler s err = s.
Proof.
  destruct s as [app c]. simpl. intros H. unfold HTTPErrorHandler.
  now rewrite H.
Qed.

(** X2: the handler leaves the store and the cache alone and only ever
    appends to the log: nothing when the application is not in debug mode
    or the response is already committed, at most two lines otherwise. *)
Theorem HTTPErrorHandler_log (s : echo.State) (err : option error) :
  let app := fst s in
  let app' := fst (HTTPErrorHandler s err) in
  IsDebug app' = IsDebug app /\ Dao app' = Dao app /\ Cache app' = Cache app /\
  exists more,
    Log app' = (Log app ++ more)%list /\
    (List.length more <= 2)%nat /\
    (IsDebug app = false -> more = []) /\
    (echo.Committed (echo.response (snd s)) = true -> more = []).
Proof.
  destruct s as [app c]. cbn [fst snd]. unfold HTTPErrorHandler.
  destruct (echo.Committed (echo.response c)) eqn:Hc.
  { repeat split. exists []. rewrite app_nil_r. repeat split; auto. }
  destruct app as [dbg dao cache log].
  destruct err as [[[code message [internal|]] | [code message [raw|]] | text]|];
    cbn [rest.Code rest.NewApiError rest.NewBadRequestError rest.RawData IsDebug];
    destruct (String.eqb (echo.Method (echo.request c)) http.MethodHead);
    unfold echo.JSON, echo.NoContent;
    destruct (echo.writeError c) as [w|]; destruct dbg; cbn;
    repeat split;
    first [ exists []; rewrite app_nil_r; repeat split; (lia || discriminate || auto); fail
          | eexists [_]; repeat split; (simpl; lia || discriminate || auto); fail
          | eexists [_; _]; rewrite <- app_assoc; repeat split;
            (simpl; lia || discriminate || auto); fail ].
Qed.

(** X3: the handler answers once.  Whatever it was called on, the response
    is committed afterwards, and a second call, for whatever error, changes
    nothing. *)
Theorem HTTPErrorHandler_once (s : echo.State) (err err' : option error) :
  echo.Committed (echo.response (snd (HTTPErrorHandler s err))) = true /\
  HTTPErrorHandler (HTTPErrorHandler s err) err' = HTTPErrorHandler s err.
Proof.
  assert (H : echo.Committed (echo.response (snd (HTTPErrorHandler s err))) = true).
  { destruct s as [app c].
    destruct (echo.Committed (echo.response c)) eqn:Hc.
    - now rewrite (HTTPErrorHandler_committed (app, c) err Hc).
    - now apply HTTPErrorHandler_commits. }
  split; [exact H | now apply HTTPErrorHandler_committed].
Qed.

(** ** More on the static directory handler *)

Lemma SplitSlash_cons (s : string) :
  exists e es, strings.SplitSlash s = e :: es.
Proof.
  destruct s as [|a s]; simpl; [eauto|].
  destruct (Ascii.eqb a "/"); [eauto|].
  destruct (strings.SplitSlash s); eauto.
Qed.

(** Joining the elements with slashes gives the path back. *)
Lemma concat_SplitSlash (s : string) :
  String.concat "/" (strings.SplitSlash s) = s.
Proof.
  induction s as [|a s IH]; [reflexivity|].
  cbn [strings.SplitSlash].
  destruct (SplitSlash_cons s) as (e & es & He). rewrite He in *.
  destruct (Ascii.eqb_spec a "/") as [-> | Hne].
  - change (String.concat "/" ("" :: e :: es))
      with (String "/" (String.concat "/" (e :: es))).
    now rewrite IH.
  - destruct es as [|e' es].
    + simpl in *. now rewrite IH.
    + change (String.concat "/" (String a e :: e' :: es))
        with (String a (String.concat "/" (e :: e' :: es))).
      now rewrite IH.
Qed.

Lemma step_valid (rooted : bool) (out : list string) (elem : string) :
  fs.validElem elem = true -> filepath.step rooted out elem = elem :: out.
Proof.
  unfold fs.validElem, filepath.step. intros H.
  apply negb_true_iff in H. apply orb_false_iff in H as [H Hdd].
  apply orb_false_iff in H as [He Hd]. now rewrite He, Hd, Hdd.
Qed.

Lemma fold_step_valid (rooted : bool) (elems out : list string) :
  forallb fs.validElem elems = true ->
  List.fold_left (filepath.step rooted) elems out = (List.rev elems ++ out)%list.
Proof.
  revert out. induction elems as [|e elems IH]; intros out H; [reflexivity|].
  simpl in H. apply andb_true_iff in H as [He H].
  simpl. rewrite step_valid by exact He. rewrite IH by exact H.
  now rewrite <- app_assoc.
Qed.

(** [Clean] leaves a valid path as it is. *)
Lemma Clean_valid (p : string) :
  fs.ValidPath p = true -> filepath.Clean p = p.
Proof.
  intros Hv. pose proof (ValidPath_elements p Hv) as [Hr _].
  unfold fs.ValidPath in Hv. apply andb_true_iff in Hv as [_ Hv].
  apply orb_true_iff in Hv as [Hd | He].
  - apply String.eqb_eq in Hd. subst p. reflexivity.
  - unfold filepath.Clean.
    destruct (String.eqb p "") eqn:Hp.
    { apply String.eqb_eq in Hp. subst p. discriminate He. }
    rewrite Hr. rewrite fold_step_valid by exact He. rewrite app_nil_r.
    destruct (SplitSlash_cons p) as (e & es & Hs).
    destruct (List.rev (strings.SplitSlash p)) as [|o out] eqn:Hrev.
    + rewrite Hs in Hrev. apply (f_equal (@List.length string)) in Hrev.
      rewrite List.length_rev in Hrev. discriminate Hrev.
    + rewrite <- Hrev, List.rev_involutive. apply concat_SplitSlash.
Qed.

(** The name made of a valid path, with or without one leading slash, is
    the path. *)
Lemma openedName_valid (p q : string) :
  fs.ValidPath p = true -> q = p \/ q = String "/" p -> openedName q = p.
Proof.
  intros Hv Hq. unfold openedName, filepath.ToSlash.
  destruct Hq as [-> | ->].
  - rewrite TrimPrefix_other; [now apply Clean_valid|].
    now apply ValidPath_elements.
  - rewrite TrimPrefix_slash. now apply Clean_valid.
Qed.

(** X4: a file the file system holds under a valid path other than the
    root is served at that path, with or without a leading slash: the handler returns no error and
    the response is the file's content with status 200. *)
Theorem StaticDirectoryHandler_serves (fileSystem : fs.FS)
  (disablePathUnescaping : bool) (app : App) (c : echo.Context)
  (p q content : string) :
  (if negb disablePathUnescaping then url.PathUnescape (echo.pathParam c)
   else (echo.pathParam c, None)) = (q, None) ->
  q = p \/ q = String "/" p ->
  fs.ValidPath p = true -> p <> "." ->
  fileSystem !! p = Some (fs.File content) ->
  StaticDirectoryHandler fileSystem disablePathUnescaping (app, c) =
    ((app, echo.ServeContent c content), None) /\
  echo.Status (echo.response (echo.ServeContent c content)) = http.StatusOK /\
  echo.Payload (echo.response (echo.ServeContent c content)) =
    echo.FileBody content.
Proof.
  intros Hq Hp Hv Hroot Hl. split; [|split; reflexivity].
  unfold StaticDirectoryHandler. rewrite Hq.
  fold (openedName q). rewrite (openedName_valid p q Hv Hp).
  unfold echo.FileFS, fs.Open. rewrite Hv.
  apply String.eqb_neq in Hroot. now rewrite Hroot, Hl.
Qed.

Lemma SplitSlash_app (a b : string) :
  strings.SplitSlash (a +:+ "/" +:+ b) =
    (strings.SplitSlash a ++ strings.SplitSlash b)%list.
Proof.
  induction a as [|c a IH]; [reflexivity|].
  change (String c a +:+ "/" +:+ b) with (String c (a +:+ "/" +:+ b)).
  cbn [strings.SplitSlash]. rewrite IH. destruct (Ascii.eqb c "/"); [reflexivity|].
  destruct (SplitSlash_cons a) as (e & es & ->). reflexivity.
Qed.

Lemma ValidString_app_le (n : nat) (a b : string) :
  (String.length a <= n)%nat ->
  utf8.ValidString a = true -> utf8.ValidString b = true ->
  utf8.ValidString (a +:+ b) = true.
Proof.
  revert a. induction n as [|n IH]; intros a Hn Ha Hb.
  { destruct a; [exact Hb | simpl in Hn; lia]. }
  destruct a as [|c0 r0]; [exact Hb|].
  change (String c0 r0 +:+ b) with (String c0 (r0 +:+ b)).
  cbn [utf8.ValidString String.length] in *.
  destruct (utf8.between 0 127 c0).
  { apply IH; [lia | exact Ha | exact Hb]. }
  destruct r0 as [|c1 r1]; [discriminate Ha|].
  change (String c1 r1 +:+ b) with (String c1 (r1 +:+ b)).
  cbn [String.length] in *.
  destruct (utf8.between 194 223 c0).
  { apply andb_true_iff in Ha as [H1 Ha]. rewrite H1.
    apply IH; [lia | exact Ha | exact Hb]. }
  destruct r1 as [|c2 r2]; [discriminate Ha|].
  change (String c2 r2 +:+ b) with (String c2 (r2 +:+ b)).
  cbn [String.length] in *.
  destruct (utf8.between 224 239 c0).
  { apply andb_true_iff in Ha as [H1 Ha]. rewrite H1.
    apply IH; [lia | exact Ha | exact Hb]. }
  destruct r2 as [|c3 r3]; [discriminate Ha|].
  change (String c3 r3 +:+ b) with (String c3 (r3 +:+ b)).
  cbn [String.length] in *.
  apply andb_true_iff in Ha as [H1 Ha]. rewrite H1.
  apply IH; [lia | exact Ha | exact Hb].
Qed.

Lemma ValidString_app (a b : string) :
  utf8.ValidString a = true -> utf8.ValidString b = true ->
  utf8.ValidString (a +:+ b) = true.
Proof. apply (ValidString_app_le (String.length a)). lia. Qed.

(** The index page below a valid path is a valid path. *)
Lemma ValidPath_index (d : string) :
  fs.ValidPath d = true -> fs.ValidPath (indexOf d) = true.
Proof.
  intros Hv. unfold indexOf.
  destruct (String.eqb d ".") eqn:Hd; [reflexivity|].
  unfold fs.ValidPath in *. apply andb_true_iff in Hv as [Hu Hv].
  rewrite Hd in Hv. cbn [orb] in Hv.
  apply andb_true_iff. split.
  - apply ValidString_app; [exact Hu | reflexivity].
  - apply orb_true_iff. right. rewrite SplitSlash_app, forallb_app, Hv.
    reflexivity.
Qed.

Lemma indexOf_root (d : string) : String.eqb (indexOf d) "." = false.
Proof.
  unfold indexOf. destruct (String.eqb d "."); [reflexivity|].
  apply String.eqb_neq. destruct d as [|a d]; [discriminate|].
  change (String a d +:+ "/" +:+ echo.indexPage)
    with (String a (d +:+ "/" +:+ echo.indexPage)).
  intros H. inversion H as [[Ha Hd]]. destruct d; discriminate Hd.
Qed.

Lemma Join_index (d : string) :
  fs.ValidPath d = true ->
  filepath.ToSlash (filepath.Join d echo.indexPage) = indexOf d.
Proof.
  intros Hv. pose proof (ValidPath_index d Hv) as Hi.
  unfold filepath.ToSlash, filepath.Join.
  destruct (String.eqb d "") eqn:He.
  { apply String.eqb_eq in He. subst d. discriminate Hv. }
  cbn [String.eqb echo.indexPage Ascii.eqb].
  unfold indexOf in *. destruct (String.eqb d ".") eqn:Hd.
  - apply String.eqb_eq in Hd. subst d. reflexivity.
  - now apply Clean_valid.
Qed.

(** X5: a name that opens as a directory, the root included, is answered
    with the index page below it: its content when the file system holds
    the page, the not found error when it does not. *)
Theorem StaticDirectoryHandler_index (fileSystem : fs.FS)
  (disablePathUnescaping : bool) (app : App) (c : echo.Context) (q : string) :
  (if negb disablePathUnescaping then url.PathUnescape (echo.pathParam c)
   else (echo.pathParam c, None)) = (q, None) ->
  fs.Open fileSystem (openedName q) = Some fs.Dir ->
  StaticDirectoryHandler fileSystem disablePathUnescaping (app, c) =
    match fileSystem !! indexOf (openedName q) with
    | Some (fs.File content) => ((app, echo.ServeContent c content), None)
    | Some fs.Dir =>
        ((app, c), Some (errorString "file does not implement io.ReadSeeker"))
    | None => ((app, c), Some echo.ErrNotFound)
    end.
Proof.
  intros Hq Hdir. unfold StaticDirectoryHandler. rewrite Hq.
  fold (openedName q). unfold echo.FileFS. rewrite Hdir.
  assert (Hv : fs.ValidPath (openedName q) = true).
  { unfold fs.Open in Hdir.
    destruct (fs.ValidPath (openedName q)); [reflexivity | discriminate Hdir]. }
  rewrite (Join_index _ Hv). unfold fs.Open at 1.
  rewrite (ValidPath_index _ Hv), indexOf_root.
  now destruct (fileSystem !! indexOf (openedName q)) as [[content|]|].
Qed.

Lemma unescape_plain_app (pre s : string) :
  noPercent pre = true ->
  url.unescape (pre +:+ s) = String.append pre <$> url.unescape s.
Proof.
  induction pre as [|a pre IH]; intros Hp.
  - change ("" +:+ s) with s. now destruct (url.unescape s).
  - cbn [noPercent] in Hp. apply andb_true_iff in Hp as [Ha Hp].
    apply negb_true_iff in Ha.
    change (String a pre +:+ s) with (String a (pre +:+ s)).
    cbn [url.unescape]. rewrite Ha, (IH Hp).
    now destruct (url.unescape s).
Qed.

Lemma unescape_bad (rest : string) :
  badEscape rest = true -> url.unescape (String "%" rest) = None.
Proof.
  intros Hb. cbn [url.unescape]. rewrite Ascii.eqb_refl.
  destruct rest as [|h [|l r]]; try reflexivity.
  cbn [badEscape] in Hb. apply negb_true_iff in Hb. now rewrite Hb.
Qed.

(** A path without percent signs unescapes to itself. *)
Lemma unescape_plain (s : string) :
  noPercent s = true -> url.unescape s = Some s.
Proof.
  induction s as [|a s IH]; intros Hp; [reflexivity|].
  cbn [noPercent] in Hp. apply andb_true_iff in Hp as [Ha Hp].
  apply negb_true_iff in Ha. cbn [url.unescape]. rewrite Ha, (IH Hp).
  reflexivity.
Qed.

(** X6: a path variable whose first percent sign is not followed by two
    hexadecimal digits is refused when the handler unescapes: it returns
    the unescape error, whatever the file system holds, and leaves the
    application and the response as they were. *)
Theorem StaticDirectoryHandler_bad_escape (fileSystem : fs.FS) (app : App)
  (c : echo.Context) (pre rest : string) :
  echo.pathParam c = pre +:+ String "%" rest ->
  noPercent pre = true -> badEscape rest = true ->
  StaticDirectoryHandler fileSystem false (app, c) =
    ((app, c),
     Some (errorString "failed to unescape path variable: invalid URL escape")).
Proof.
  intros Hp Hpre Hbad. unfold StaticDirectoryHandler, url.PathUnescape.
  cbn [negb]. rewrite Hp, (unescape_plain_app pre _ Hpre), (unescape_bad _ Hbad).
  reflexivity.
Qed.

(** X7: for a path variable without percent signs unescaping changes
    nothing: the handler answers the same with and without it. *)
Theorem StaticDirectoryHandler_plain (fileSystem : fs.FS) (app : App)
  (c : echo.Context) :
  noPercent (echo.pathParam c) = true ->
  StaticDirectoryHandler fileSystem false (app, c) =
    StaticDirectoryHandler fileSystem true (app, c).
Proof.
  intros Hp. unfold StaticDirectoryHandler, url.PathUnescape. cbn [negb].
  now rewrite (unescape_plain _ Hp).
Qed.

Lemma FileFS_cases (c : echo.Context) (name : string) (fsys : fs.FS) :
  (exists content,
     echo.FileFS c name fsys = (echo.ServeContent c content, None)) \/
  echo.FileFS c name fsys = (c, Some echo.ErrNotFound) \/
  echo.FileFS c name fsys =
    (c, Some (errorString "file does not implement io.ReadSeeker")).
Proof.
  unfold echo.FileFS.
  destruct (fs.Open fsys name) as [[content|]|]; eauto.
  destruct (fs.Open fsys _) as [[content|]|]; eauto.
Qed.

Lemma StaticDirectoryHandler_cases (fileSystem : fs.FS)
  (disablePathUnescaping : bool) (app : App) (c : echo.Context) :
  (exists content,
     StaticDirectoryHandler fileSystem disablePathUnescaping (app, c) =
       ((app, echo.ServeContent c content), None)) \/
  StaticDirectoryHandler fileSystem disablePathUnescaping (app, c) =
    ((app, c), Some echo.ErrNotFound) \/
  exists text,
    StaticDirectoryHandler fileSystem disablePathUnescaping (app, c) =
      ((app, c), Some (errorString text)).
Proof.
  unfold StaticDirectoryHandler.
  destruct (if negb disablePathUnescaping then _ else _) as [p [e|]].
  - right. right. eauto.
  - destruct (FileFS_cases c
                (filepath.ToSlash (filepath.Clean (strings.TrimPrefix p "/")))
                fileSystem) as [[content ->] | [-> | ->]]; eauto.
Qed.

(** X8: the handler never touches the application, and it writes a
    response only when it serves a file: with an error it returns the
    context it was given, without one the context with the content of a
    file and status 200. *)
Theorem StaticDirectoryHandler_frame (fileSystem : fs.FS)
  (disablePathUnescaping : bool) (app : App) (c : echo.Context) :
  let '(s', ret) :=
    StaticDirectoryHandler fileSystem disablePathUnescaping (app, c) in
  fst s' = app /\
  match ret with
  | Some _ => snd s' = c
  | None =>
      exists content,
        snd s' = echo.ServeContent c content /\
        echo.Status (echo.response (snd s')) = http.StatusOK /\
        echo.Committed (echo.response (snd s')) = true
  end.
Proof.
  destruct (StaticDirectoryHandler_cases fileSystem disablePathUnescaping app c)
    as [[content ->] | [-> | [text ->]]]; cbn; eauto.
Qed.

Lemma HTTPErrorHandler_sends (app : App) (c : echo.Context)
  (err : option error) :
  echo.Committed (echo.response c) = false ->
  echo.Status (echo.response (snd (HTTPErrorHandler (app, c) err))) =
    statusOf err.
Proof.
  intros Hc. unfold HTTPErrorHandler. rewrite Hc.
  destruct err as [[[code message internal] | [code message raw] | text]|];
    destruct (String.eqb (echo.Method (echo.request c)) http.MethodHead);
    unfold echo.JSON, echo.NoContent;
    destruct (echo.writeError c) as [w|]; reflexivity.
Qed.

(** X9: an error of the handler, passed to the error handler as the
    router does, ends as a response: 404 when the name does not open, 400
    when the path variable does not unescape or the index page is no
    file. *)
Theorem StaticDirectoryHandler_error_response (fileSystem : fs.FS)
  (disablePathUnescaping : bool) (app : App) (c : echo.Context) (e : error) :
  echo.Committed (echo.response c) = false ->
  let '(s', ret) :=
    StaticDirectoryHandler fileSystem disablePathUnescaping (app, c) in
  ret = Some e ->
  let status := echo.Status (echo.response (snd (HTTPErrorHandler s' ret))) in
  (e = echo.ErrNotFound /\ status = http.StatusNotFound) \/
  (exists text, e = errorString text /\ status = http.StatusBadRequest).
Proof.
  intros Hc.
  destruct (StaticDirectoryHandler_cases fileSystem disablePathUnescaping app c)
    as [[content ->] | [-> | [text ->]]]; intros He; inversion He; subst;
    cbn zeta; rewrite (HTTPErrorHandler_sends app c _ Hc); [left | right; eexists];
    split; reflexivity.
Qed.

(** ** More on the admin counter cache and the installer redirect *)

(** X10: updating twice is updating once: a second call on the state the
    first one left returns the same state and the same result. *)
Theorem updateTotalAdminsCache_idempotent (app : App) :
  let '(app1, ret) := updateTotalAdminsCache app in
  updateTotalAdminsCache app1 = (app1, ret).
Proof.
  unfold updateTotalAdminsCache, daos.TotalAdmins.
  destruct (daos.failure (Dao app)) as [e|] eqn:Hf; cbn.
  - now rewrite Hf.
  - rewrite Hf. unfold setCache, store.Set'. cbn.
    now rewrite insert_insert_eq.
Qed.

(** What the middleware does once the cache holds the key. *)
Lemma installerRedirectFunc_populated (app : App) (c : echo.Context) :
  store.Has (Cache app) totalAdminsCacheKey = true ->
  installerRedirectFunc (app, c) =
    let totalAdmins := cast.ToInt (store.Get (Cache app) totalAdminsCacheKey) in
    let hasInstallerParam :=
      bool_decide (is_Some (echo.Query (echo.request c) !! "installer")) in
    if (totalAdmins =? 0) && negb hasInstallerParam
    then echo.Return (app, redirected c "/_/?installer#") None
    else if negb (totalAdmins =? 0) && hasInstallerParam
         then echo.Return (app, redirected c "/_/#/") None
         else echo.Next (app, c).
Proof.
  intros Hhas. unfold installerRedirectFunc. rewrite Hhas. reflexivity.
Qed.

Lemma installerRedirectFunc_load (app : App) (c : echo.Context) :
  store.Has (Cache app) totalAdminsCacheKey = false ->
  daos.failure (Dao app) = None ->
  installerRedirectFunc (app, c) =
    installerRedirectFunc
      (setCache app (<[totalAdminsCacheKey := Int (adminCount app)]> (Cache app)),
       c).
Proof.
  intros Hhas Hf.
  rewrite (installerRedirectFunc_populated (setCache app _)).
  2:{ apply bool_decide_eq_true. cbn. rewrite lookup_insert_eq. eauto. }
  unfold installerRedirectFunc. rewrite Hhas. cbn [negb].
  rewrite (updateTotalAdminsCache_success app Hf). reflexivity.
Qed.

Lemma adminCount_zero (app : App) :
  adminCount app = 0 <-> daos.admins (Dao app) = [].
Proof.
  unfold adminCount. destruct (daos.admins (Dao app)); simpl; split;
    intros H; try reflexivity; try discriminate; lia.
Qed.

(** The first request: the count is taken, cached and decided by. *)
Lemma installerRedirectFunc_first (app : App) (c : echo.Context) :
  let counted :=
    setCache app (<[totalAdminsCacheKey := Int (adminCount app)]> (Cache app)) in
  let hasInstallerParam :=
    bool_decide (is_Some (echo.Query (echo.request c) !! "installer")) in
  store.Has (Cache app) totalAdminsCacheKey = false ->
  daos.failure (Dao app) = None ->
  installerRedirectFunc (app, c) =
    if (adminCount app =? 0) && negb hasInstallerParam
    then echo.Return (counted, redirected c "/_/?installer#") None
    else if negb (adminCount app =? 0) && hasInstallerParam
         then echo.Return (counted, redirected c "/_/#/") None
         else echo.Next (counted, c).
Proof.
  intros counted hasInstallerParam Hhas Hf. subst counted hasInstallerParam.
  rewrite (installerRedirectFunc_load app c Hhas Hf).
  rewrite installerRedirectFunc_populated.
  2:{ apply bool_decide_eq_true. cbn. rewrite lookup_insert_eq. eauto. }
  cbn zeta. unfold store.Get. cbn [Cache setCache].
  rewrite lookup_insert_eq. reflexivity.
Qed.

(** X11: on the first request, with no count cached yet and a store that
    answers, the middleware counts the admins, caches the count and
    decides by it: with no admin and no installer key it redirects to the
    installer page, with an admin and the key to the home page, and
    otherwise it hands over; in each case the state it passes on holds the
    count in the cache. *)
Theorem installerRedirect_first_request (hooks : core.Hooks) (app : App)
  (c : echo.Context) :
  let redirect := snd (installerRedirect hooks) in
  let installer := echo.Query (echo.request c) !! "installer" in
  let counted :=
    setCache app (<[totalAdminsCacheKey := Int (adminCount app)]> (Cache app)) in
  store.Has (Cache app) totalAdminsCacheKey = false ->
  daos.failure (Dao app) = None ->
  store.Has (Cache counted) totalAdminsCacheKey = true /\
  (daos.admins (Dao app) = [] -> installer = None ->
   echo.run redirect (app, c) =
     echo.Return (counted, redirected c "/_/?installer#") None) /\
  (daos.admins (Dao app) <> [] -> is_Some installer ->
   echo.run redirect (app, c) =
     echo.Return (counted, redirected c "/_/#/") None) /\
  ((daos.admins (Dao app) = [] /\ is_Some installer) \/
   (daos.admins (Dao app) <> [] /\ installer = None) ->
   echo.run redirect (app, c) = echo.Next (counted, c)).
Proof.
  intros redirect installer counted Hhas Hf.
  assert (Hc : store.Has (Cache counted) totalAdminsCacheKey = true).
  { apply bool_decide_eq_true. cbn. rewrite lookup_insert_eq. eauto. }
  assert (Hrun : echo.run redirect (app, c) =
    if (adminCount app =? 0) && negb (bool_decide (is_Some installer))
    then echo.Return (counted, redirected c "/_/?installer#") None
    else if negb (adminCount app =? 0) && bool_decide (is_Some installer)
         then echo.Return (counted, redirected c "/_/#/") None
         else echo.Next (counted, c)).
  { subst redirect counted installer. cbn [installerRedirect snd echo.run].
    exact (installerRedirectFunc_first app c Hhas Hf). }
  split; [exact Hc|]. rewrite Hrun.
  split; [|split].
  - intros Ha Hn. apply adminCount_zero in Ha. rewrite Ha, Hn.
    rewrite bool_decide_eq_false_2 by (intros [x Hx]; discriminate Hx).
    reflexivity.
  - intros Ha Hs.
    assert (H0 : adminCount app <> 0) by (now rewrite adminCount_zero).
    apply Z.eqb_neq in H0. rewrite H0.
    rewrite bool_decide_eq_true_2 by exact Hs. reflexivity.
  - intros [[Ha Hs] | [Ha Hn]].
    + apply adminCount_zero in Ha. rewrite Ha.
      rewrite bool_decide_eq_true_2 by exact Hs. reflexivity.
    + assert (H0 : adminCount app <> 0) by (now rewrite adminCount_zero).
      apply Z.eqb_neq in H0. rewrite H0, Hn.
      rewrite bool_decide_eq_false_2 by (intros [x Hx]; discriminate Hx).
      reflexivity.
Qed.

Lemma sameButCount_refl (app : App) : sameButCount app app.
Proof. repeat split. Qed.

Lemma sameButCount_set (app : App) (v : any) :
  sameButCount app (setCache app (<[totalAdminsCacheKey := v]> (Cache app))).
Proof.
  repeat split. intros k Hk. cbn. now apply lookup_insert_ne.
Qed.

(** X12: whatever the state, the middleware changes nothing of the
    application but the cached count, and of the context nothing unless it
    redirects.  When it hands over, the context is the one it was given;
    when it returns an error, the count was not cached, the error is the
    one of the store and nothing at all has changed; when it returns
    without one, the response is a 307 to the installer page or to the
    home page. *)
Theorem installerRedirect_frame (hooks : core.Hooks) (app : App)
  (c : echo.Context) :
  match echo.run (snd (installerRedirect hooks)) (app, c) with
  | echo.Next (app', c') => sameButCount app app' /\ c' = c
  | echo.Return (app', c') (Some e) =>
      app' = app /\ c' = c /\
      store.Has (Cache app) totalAdminsCacheKey = false /\
      daos.failure (Dao app) = Some e
  | echo.Return (app', c') None =>
      sameButCount app app' /\
      (c' = redirected c "/_/?installer#" \/ c' = redirected c "/_/#/") /\
      echo.Status (echo.response c') = 307
  end.
Proof.
  cbn [installerRedirect snd echo.run].
  destruct (store.Has (Cache app) totalAdminsCacheKey) eqn:Hhas.
  - rewrite (installerRedirectFunc_populated app c Hhas). cbn zeta.
    repeat match goal with
           | |- context [if ?b then _ else _] => destruct b
           end; repeat split; auto.
  - destruct (daos.failure (Dao app)) as [e|] eqn:Hf.
    + unfold installerRedirectFunc. rewrite Hhas. cbn [negb].
      rewrite (updateTotalAdminsCache_failure app e Hf). now repeat split.
    + rewrite (installerRedirectFunc_load app c Hhas Hf).
      rewrite installerRedirectFunc_populated.
      2:{ apply bool_decide_eq_true. cbn. rewrite lookup_insert_eq. eauto. }
      cbn zeta.
      repeat match goal with
             | |- context [if ?b then _ else _] => destruct b
             end; repeat split; auto; intros k Hk; cbn;
        now apply lookup_insert_ne.
Qed.

(** ** More on [InitApi] *)

Lemma extends_refl (e : echo.Echo) : extends e e.
Proof.
  repeat split; exists []; now rewrite app_nil_r.
Qed.

Lemma extends_trans (e1 e2 e3 : echo.Echo) :
  extends e1 e2 -> extends e2 e3 -> extends e1 e3.
Proof.
  intros (Hd & Hh & [p Hp] & [m Hm] & [r Hr])
         (Hd' & Hh' & [p' Hp'] & [m' Hm'] & [r' Hr']).
  repeat split; try congruence.
  - exists (p ++ p')%list. now rewrite Hp', Hp, app_assoc.
  - exists (m ++ m')%list. now rewrite Hm', Hm, app_assoc.
  - exists (r ++ r')%list. now rewrite Hr', Hr, app_assoc.
Qed.

Lemma extends_apply (e : echo.Echo) (call : core.RouterCall) :
  extends e (core.apply e call).
Proof.
  destruct call as [m | m | r]; cbn; repeat split;
    first [ eexists [_]; reflexivity | exists []; now rewrite app_nil_r ].
Qed.

Lemma extends_calls (calls : list core.RouterCall) (e : echo.Echo) :
  extends e (List.fold_left core.apply calls e).
Proof.
  revert e. induction calls as [|call calls IH]; intros e; simpl.
  - apply extends_refl.
  - eapply extends_trans; [apply extends_apply | apply IH].
Qed.

Lemma extends_Trigger
  (hs : list (App -> App * list core.RouterCall * option error))
  (s s' : App * echo.Echo) (err : option error) :
  hook.Trigger (List.map core.onServeEvent hs) s = (s', err) ->
  extends (snd s) (snd s').
Proof.
  revert s. induction hs as [|h hs IH]; intros s Ht; simpl in Ht.
  - inversion Ht; subst. apply extends_refl.
  - unfold core.onServeEvent at 1 in Ht.
    destruct (h (fst s)) as [[app' calls] [e|]]; simpl in Ht.
    + inversion Ht; subst. apply extends_calls.
    + apply IH in Ht. eapply extends_trans; [apply extends_calls | exact Ht].
Qed.

Lemma fold_Add (rs : list echo.Route) (e : echo.Echo) :
  let e' := List.fold_left echo.Add rs e in
  echo.Debug e' = echo.Debug e /\
  echo.HTTPErrorHandler e' = echo.HTTPErrorHandler e /\
  echo.premiddleware e' = echo.premiddleware e /\
  echo.middleware e' = echo.middleware e /\
  echo.routes e' = (echo.routes e ++ rs)%list.
Proof.
  revert e. induction rs as [|r rs IH]; intros e; simpl.
  - repeat split. now rewrite app_nil_r.
  - destruct (IH (echo.Add e r)) as (Hd & Hh & Hp & Hm & Hr).
    repeat split; try assumption. rewrite Hr. simpl. now rewrite <- app_assoc.
Qed.

(** The instance [InitApi] returns, by its fields. *)
Lemma InitApi_fields (pkg : Packages) (app : App) (hooks : core.Hooks)
  (e : echo.Echo) :
  snd (InitApi pkg app hooks) = (Some e, None) ->
  echo.Debug e = IsDebug app /\
  echo.HTTPErrorHandler e = HTTPErrorHandler /\
  (exists pre,
     echo.premiddleware e =
       named "RemoveTrailingSlash" (RemoveTrailingSlash pkg) :: pre) /\
  (exists added,
     echo.routes e =
       (uiRoutes pkg hooks ++ apiRoutes pkg ++ added ++ [catchAll pkg])%list).
Proof.
  unfold InitApi, bindStaticAdminUI, installerRedirect. cbn [fst snd].
  match goal with
  | |- context [hook.Trigger ?hs ?s] =>
      destruct (hook.Trigger hs s) as [[app' e'] [err|]] eqn:Ht
  end; cbn [snd]; intros H; [discriminate H|].
  inversion H; subst. clear H.
  apply extends_Trigger in Ht. cbn [snd] in Ht.
  destruct Ht as (Hd & Hh & [p Hp] & _ & [r Hr]).
  match type of Hd with
  | _ = echo.Debug (List.fold_left echo.Add ?rs ?e0) =>
      destruct (fold_Add rs e0) as (Fd & Fh & Fp & _ & Fr)
  end.
  cbn zeta in *. rewrite Fd in Hd. rewrite Fh in Hh. rewrite Fp in Hp.
  rewrite Fr in Hr.
  repeat split.
  - exact Hd.
  - exact Hh.
  - exists p. cbn [echo.Add echo.premiddleware]. rewrite Hp. reflexivity.
  - exists r. cbn [echo.Add echo.routes]. rewrite Hr.
    unfold uiRoutes, apiRoutes, catchAll, bindStaticAdminUI, installerRedirect.
    cbn. now rewrite <- !app_assoc.
Qed.

(** X13: the instance [InitApi] returns holds all that [InitApi]
    registers, whatever the BeforeServe handlers added: the debug flag of
    the application, the custom error handler, the trailing slash
    middleware first among the pre middlewares, and as routes the two of
    the admin UI, those of the api groups, those the handlers added, and
    the catch all route after all of them. *)
Theorem InitApi_instance (pkg : Packages) (app : App) (hooks : core.Hooks)
  (e : echo.Echo) :
  snd (InitApi pkg app hooks) = (Some e, None) ->
  echo.Debug e = IsDebug app /\
  echo.HTTPErrorHandler e = HTTPErrorHandler /\
  (exists pre,
     echo.premiddleware e =
       named "RemoveTrailingSlash" (RemoveTrailingSlash pkg) :: pre) /\
  (exists added,
     echo.routes e =
       (uiRoutes pkg hooks ++ apiRoutes pkg ++ added ++ [catchAll pkg])%list) /\
  List.map echo.routePath (uiRoutes pkg hooks) = ["/_"; "/_/*"] /\
  (core.OnBeforeServe hooks = [] ->
   echo.routes e = (uiRoutes pkg hooks ++ apiRoutes pkg ++ [catchAll pkg])%list).
Proof.
  intros H. destruct (InitApi_fields pkg app hooks e H) as (Hd & Hh & Hp & Hr).
  split; [exact Hd|]. split; [exact Hh|]. split; [exact Hp|].
  split; [exact Hr|]. split; [reflexivity|].
  intros Hnil. revert H. unfold InitApi, bindStaticAdminUI, installerRedirect.
  cbn [fst snd core.OnBeforeServe]. rewrite Hnil. cbn [List.map hook.Trigger snd].
  intros H. inversion H; subst. clear H.
  match goal with
  | |- context [List.fold_left echo.Add ?rs ?e0] =>
      destruct (fold_Add rs e0) as (_ & _ & _ & _ & Fr)
  end.
  cbn zeta in Fr. cbn [echo.Add echo.routes]. rewrite Fr.
  unfold uiRoutes, apiRoutes, catchAll, bindStaticAdminUI, installerRedirect.
  cbn. now rewrite <- !app_assoc.
Qed.

Lemma Trigger_ok {A : Type} (hs : list (A -> A * option error)) (a : A) :
  (forall h, In h hs -> forall x, snd (h x) = None) ->
  snd (hook.Trigger hs a) = None.
Proof.
  revert a. induction hs as [|h hs IH]; intros a Hok; [reflexivity|].
  simpl. pose proof (Hok h (or_introl eq_refl) a) as Hh.
  destruct (h a) as [a' [e|]]; [discriminate Hh|].
  apply IH. intros h' Hin. apply Hok. now right.
Qed.

Lemma Trigger_fails {A : Type} (hs1 hs2 : list (A -> A * option error))
  (h : A -> A * option error) (a : A) (err : error) :
  (forall h1, In h1 hs1 -> forall x, snd (h1 x) = None) ->
  (forall x, snd (h x) = Some err) ->
  snd (hook.Trigger (hs1 ++ h :: hs2) a) = Some err.
Proof.
  intros Hok Hfail. rewrite Trigger_app.
  pose proof (Trigger_ok hs1 a Hok) as H1.
  destruct (hook.Trigger hs1 a) as [a' [e|]]; [discriminate H1|].
  simpl. pose proof (Hfail a') as Hh.
  destruct (h a') as [a'' [e|]]; [exact Hh | discriminate Hh].
Qed.

Lemma onServeEvent_result
  (h : App -> App * list core.RouterCall * option error)
  (ev : App * echo.Echo) :
  snd (core.onServeEvent h ev) = snd (h (fst ev)).
Proof.
  unfold core.onServeEvent. now destruct (h (fst ev)) as [[app' calls] err].
Qed.

(** What [InitApi] returns, by what the BeforeServe hook returns. *)
Lemma InitApi_outcome (pkg : Packages) (app : App) (hooks : core.Hooks) :
  exists e0,
    snd (InitApi pkg app hooks) =
      match
        hook.Trigger (List.map core.onServeEvent (core.OnBeforeServe hooks))
          (app, e0)
      with
      | (_, Some err) => (None, Some err)
      | ((_, e), None) => (Some (echo.Add e (catchAll pkg)), None)
      end.
Proof.
  unfold InitApi, bindStaticAdminUI, installerRedirect.
  cbn [fst snd core.OnBeforeServe].
  match goal with
  | |- context [hook.Trigger ?hs (app, ?e)] => exists e
  end.
  now destruct (hook.Trigger _ _) as [[app' e'] [err|]].
Qed.

(** X14: when no BeforeServe handler can return an error, in particular
    when none is registered, [InitApi] returns an instance and no error. *)
Theorem InitApi_succeeds (pkg : Packages) (app : App) (hooks : core.Hooks) :
  (forall h, In h (core.OnBeforeServe hooks) -> forall a, snd (h a) = None) ->
  exists e, snd (InitApi pkg app hooks) = (Some e, None).
Proof.
  intros Hok. destruct (InitApi_outcome pkg app hooks) as [e0 ->].
  match goal with
  | |- context [hook.Trigger ?hs ?s] =>
      assert (Ht : snd (hook.Trigger hs s) = None)
  end.
  { apply Trigger_ok. intros h' Hin x.
    apply in_map_iff in Hin as (h & <- & Hin).
    rewrite onServeEvent_result. now apply Hok. }
  destruct (hook.Trigger _ _) as [[app' e'] [err|]]; [discriminate Ht|].
  eauto.
Qed.

(** X15: when a BeforeServe handler returns an error and those registered
    before it return none, [InitApi] returns that error and no instance,
    whatever the handlers registered after it would do. *)
Theorem InitApi_fails (pkg : Packages) (app : App) (hooks : core.Hooks)
  (hs1 hs2 : list (App -> App * list core.RouterCall * option error))
  (h : App -> App * list core.RouterCall * option error) (err : error) :
  core.OnBeforeServe hooks = (hs1 ++ h :: hs2)%list ->
  (forall h1, In h1 hs1 -> forall a, snd (h1 a) = None) ->
  (forall a, snd (h a) = Some err) ->
  snd (InitApi pkg app hooks) = (None, Some err).
Proof.
  intros Hhs Hok Hfail. destruct (InitApi_outcome pkg app hooks) as [e0 ->].
  rewrite Hhs, List.map_app. cbn [List.map].
  match goal with
  | |- context [hook.Trigger ?hs ?s] =>
      assert (Ht : snd (hook.Trigger hs s) = Some err)
  end.
  { apply Trigger_fails.
    - intros h' Hin x. apply in_map_iff in Hin as (h1 & <- & Hin).
      rewrite onServeEvent_result. now apply Hok.
    - intros x. rewrite onServeEvent_result. apply Hfail. }
  destruct (hook.Trigger _ _) as [[app' e'] [e|]]; [|discriminate Ht].
  simpl in Ht. now inversion Ht.
Qed.

Lemma InitApi_registers (pkg : Packages) (app : App) (hooks : core.Hooks) :
  snd (fst (InitApi pkg app hooks)) = fst (installerRedirect hooks).
Proof.
  unfold InitApi, bindStaticAdminUI, installerRedirect. cbn [fst snd].
  now destruct (hook.Trigger _ _) as [[app' e'] [err|]].
Qed.

(** X16: whether it returns an instance or an error, [InitApi] leaves the
    BeforeServe handlers as they were and appends the cache update once to
    the admin create hook and once to the admin delete hook; called again
    on the hooks it left, it appends the update a second time. *)
Theorem InitApi_hooks (pkg : Packages) (app app' : App) (hooks : core.Hooks) :
  let hooks1 := snd (fst (InitApi pkg app hooks)) in
  let hooks2 := snd (fst (InitApi pkg app' hooks1)) in
  core.OnBeforeServe hooks1 = core.OnBeforeServe hooks /\
  core.OnAdminAfterCreateRequest hooks1 =
    (core.OnAdminAfterCreateRequest hooks ++ [updateTotalAdminsCache])%list /\
  core.OnAdminAfterDeleteRequest hooks1 =
    (core.OnAdminAfterDeleteRequest hooks ++ [updateTotalAdminsCache])%list /\
  core.OnAdminAfterCreateRequest hooks2 =
    (core.OnAdminAfterCreateRequest hooks ++
     [updateTotalAdminsCache; updateTotalAdminsCache])%list /\
  core.OnAdminAfterDeleteRequest hooks2 =
    (core.OnAdminAfterDeleteRequest hooks ++
     [updateTotalAdminsCache; updateTotalAdminsCache])%list.
Proof.
  intros hooks1 hooks2. subst hooks2 hooks1.
  rewrite !InitApi_registers. cbn. rewrite <- !app_assoc. now repeat split.
Qed.

(** X17: the last route of the instance [InitApi] returns is the catch
    all route, and a request it handles ends, through the error handler of
    the instance, as a 404: its handler returns the not found error and
    leaves the state alone, and on a response not yet committed the error
    handler commits status 404, with the error as JSON body unless the
    request is a HEAD request or the body cannot be written. *)
Theorem InitApi_catch_all (pkg : Packages) (app : App) (hooks : core.Hooks)
  (e : echo.Echo) (s : echo.State) :
  snd (InitApi pkg app hooks) = (Some e, None) ->
  echo.Committed (echo.response (snd s)) = false ->
  (exists front, echo.routes e = (front ++ [catchAll pkg])%list) /\
  echo.handler (catchAll pkg) s = (s, Some echo.ErrNotFound) /\
  let c' := snd (echo.HTTPErrorHandler e s (Some echo.ErrNotFound)) in
  echo.Status (echo.response c') = http.StatusNotFound /\
  (String.eqb (echo.Method (echo.request (snd s))) http.MethodHead = false ->
   echo.writeError (snd s) = None ->
   echo.Payload (echo.response c') =
     echo.JSONBody
       (rest.NewApiError http.StatusNotFound "Not Found" (Some echo.ErrNotFound))).
Proof.
  intros H Hc. destruct (InitApi_fields pkg app hooks e H) as (_ & Hh & _ & [r Hr]).
  split.
  { exists (uiRoutes pkg hooks ++ apiRoutes pkg ++ r)%list.
    rewrite Hr. now rewrite <- !app_assoc. }
  split; [reflexivity|].
  rewrite Hh. destruct s as [a c]. cbn [snd] in *. split.
  - now rewrite (HTTPErrorHandler_sends a c _ Hc).
  - intros Hm Hw. unfold HTTPErrorHandler. rewrite Hc. cbn.
    rewrite Hm. unfold echo.JSON. rewrite Hw. reflexivity.
Qed.

(** ** More on the admin UI routes *)

(** X18: [bindStaticAdminUI] registers the index route under [/_] and the
    static route under [/_/*].  On a fresh installation, no count cached
    and no admin in a store that answers, a request of the index route
    without the installer key is redirected to the installer page before
    the page is read: the handler does not run.  The static route has no
    such guard: once the compression middleware hands over, its handler
    runs, whatever the admin count. *)
Theorem bindStaticAdminUI_routes (pkg : Packages) (hooks : core.Hooks)
  (s : echo.State) (app1 : App) (c1 : echo.Context) :
  Gzip pkg s = echo.Next (app1, c1) ->
  exists index static,
    uiRoutes pkg hooks = [index; static] /\
    echo.routePath index = "/_" /\ echo.routePath static = "/_/*" /\
    (store.Has (Cache app1) totalAdminsCacheKey = false ->
     daos.failure (Dao app1) = None -> daos.admins (Dao app1) = [] ->
     echo.Query (echo.request c1) !! "installer" = None ->
     let counted := setCache app1 (<[totalAdminsCacheKey := Int 0]> (Cache app1)) in
     let answer := (counted, redirected c1 "/_/?installer#") in
     echo.routeHandler index s =
       ([echo.Ran "Gzip" s (echo.Next (app1, c1));
         echo.Ran "installerRedirect" (app1, c1) (echo.Return answer None)],
        (answer, None))) /\
    echo.routeHandler static s =
      ([echo.Ran "Gzip" s (echo.Next (app1, c1));
        echo.Handled "/_/*" (app1, c1)],
       StaticDirectoryHandler (DistDirFS pkg) false (app1, c1)).
Proof.
  intros Hg. eexists _, _. split; [reflexivity|].
  split; [reflexivity|]. split; [reflexivity|]. split.
  - intros Hhas Hf Ha Hn counted answer.
    unfold echo.routeHandler.
    cbn [echo.middlewares echo.applyMiddleware echo.run named echo.label].
    rewrite Hg.
    rewrite (installerRedirectFunc_first app1 c1 Hhas Hf).
    assert (H0 : adminCount app1 = 0) by (now apply adminCount_zero).
    rewrite H0, Hn. cbn [Z.eqb andb negb].
    rewrite bool_decide_eq_false_2 by (intros [x Hx]; discriminate Hx).
    reflexivity.
  - unfold echo.routeHandler.
    cbn [echo.middlewares echo.applyMiddleware echo.run named echo.label
         echo.handler echo.routePath].
    rewrite Hg. reflexivity.
Qed.

(** ** Instances of the properties above *)

(** An instance: the not found error on a fresh response. *)
Lemma HTTPErrorHandler_status_witness :
  let c := scenario.get "/api/unknown" Absent in
  echo.Committed (echo.response c) = false /\
  echo.Status
    (echo.response
       (snd (HTTPErrorHandler (scenario.app, c) (Some echo.ErrNotFound)))) = 404.
Proof.
  intros c. split; [reflexivity|].
  exact (proj1 (proj2
    (HTTPErrorHandler_status scenario.app c (Some echo.ErrNotFound) eq_refl))).
Defined.

(** An instance: a script of the admin UI. *)
Lemma StaticDirectoryHandler_serves_witness :
  let c := echo.setPathParam (scenario.get "/_/assets/app.js" Absent)
             "assets/app.js" in
  let fileSystem := DistDirFS scenario.packages in
  url.PathUnescape (echo.pathParam c) = ("assets/app.js", None) /\
  fs.ValidPath "assets/app.js" = true /\
  fileSystem !! "assets/app.js" = Some (fs.File "import") /\
  StaticDirectoryHandler fileSystem false (scenario.app, c) =
    ((scenario.app, echo.ServeContent c "import"), None).
Proof.
  intros c fileSystem.
  assert (Hq : (if negb false then url.PathUnescape (echo.pathParam c)
                else (echo.pathParam c, None)) = ("assets/app.js", None))
    by (vm_compute; reflexivity).
  assert (Hv : fs.ValidPath "assets/app.js" = true) by (vm_compute; reflexivity).
  assert (Hl : fileSystem !! "assets/app.js" = Some (fs.File "import"))
    by (vm_compute; reflexivity).
  split; [exact Hq|]. split; [exact Hv|]. split; [exact Hl|].
  refine (proj1 (StaticDirectoryHandler_serves fileSystem false scenario.app c
                   "assets/app.js" "assets/app.js" "import" Hq (or_introl eq_refl)
                   Hv _ Hl)).
  intros H. discriminate H.
Defined.

(** An instance: the root of the admin UI. *)
Lemma StaticDirectoryHandler_index_witness :
  let c := scenario.get "/_/" Absent in
  let fileSystem := DistDirFS scenario.packages in
  url.PathUnescape (echo.pathParam c) = ("", None) /\
  fs.Open fileSystem (openedName "") = Some fs.Dir /\
  StaticDirectoryHandler fileSystem false (scenario.app, c) =
    ((scenario.app, echo.ServeContent c "<html>"), None).
Proof.
  intros c fileSystem.
  assert (Hq : (if negb false then url.PathUnescape (echo.pathParam c)
                else (echo.pathParam c, None)) = ("", None))
    by (vm_compute; reflexivity).
  assert (Hd : fs.Open fileSystem (openedName "") = Some fs.Dir)
    by (vm_compute; reflexivity).
  split; [exact Hq|]. split; [exact Hd|].
  rewrite (StaticDirectoryHandler_index fileSystem false scenario.app c "" Hq Hd).
  vm_compute. reflexivity.
Defined.

(** An instance: a percent sign before two letters that are no digits. *)
Lemma StaticDirectoryHandler_bad_escape_witness :
  let c := echo.setPathParam (scenario.get "/_/assets/%zz" Absent) "assets/%zz" in
  noPercent "assets/" = true /\ badEscape "zz" = true /\
  StaticDirectoryHandler (DistDirFS scenario.packages) false (scenario.app, c) =
    ((scenario.app, c),
     Some (errorString "failed to unescape path variable: invalid URL escape")).
Proof.
  intros c. split; [reflexivity|]. split; [reflexivity|].
  exact (StaticDirectoryHandler_bad_escape (DistDirFS scenario.packages)
           scenario.app c "assets/" "zz" eq_refl eq_refl eq_refl).
Defined.

(** An instance: a script of the admin UI, unescaped or not. *)
Lemma StaticDirectoryHandler_plain_witness :
  let c := echo.setPathParam (scenario.get "/_/assets/app.js" Absent)
             "assets/app.js" in
  noPercent (echo.pathParam c) = true /\
  StaticDirectoryHandler (DistDirFS scenario.packages) false (scenario.app, c) =
    StaticDirectoryHandler (DistDirFS scenario.packages) true (scenario.app, c).
Proof.
  intros c. split; [reflexivity|].
  exact (StaticDirectoryHandler_plain (DistDirFS scenario.packages)
           scenario.app c eq_refl).
Defined.

(** An instance: a file the admin UI does not have. *)
Lemma StaticDirectoryHandler_error_response_witness :
  let c := echo.setPathParam (scenario.get "/_/missing.js" Absent) "missing.js" in
  let fileSystem := DistDirFS scenario.packages in
  echo.Committed (echo.response c) = false /\
  snd (StaticDirectoryHandler fileSystem false (scenario.app, c)) =
    Some echo.ErrNotFound /\
  echo.Status
    (echo.response
       (snd (HTTPErrorHandler (scenario.app, c) (Some echo.ErrNotFound)))) = 404.
Proof.
  intros c fileSystem. split; [reflexivity|].
  pose proof (StaticDirectoryHandler_error_response fileSystem false
                scenario.app c echo.ErrNotFound eq_refl) as H.
  assert (Hrun : StaticDirectoryHandler fileSystem false (scenario.app, c) =
                 ((scenario.app, c), Some echo.ErrNotFound))
    by (vm_compute; reflexivity).
  rewrite Hrun in H |- *. split; [reflexivity|].
  destruct (H eq_refl) as [[_ Hs] | [text [He _]]];
    [exact Hs | discriminate He].
Defined.

(** An instance: the first request of an installation that has an admin. *)
Lemma installerRedirect_first_request_witness :
  let c := scenario.get "/_" Absent in
  store.Has (Cache scenario.app) totalAdminsCacheKey = false /\
  daos.failure (Dao scenario.app) = None /\
  echo.run (snd (installerRedirect scenario.hooks)) (scenario.app, c) =
    echo.Next
      (setCache scenario.app
         (<[totalAdminsCacheKey := Int (adminCount scenario.app)]>
            (Cache scenario.app)), c).
Proof.
  intros c.
  assert (Hhas : store.Has (Cache scenario.app) totalAdminsCacheKey = false)
    by (vm_compute; reflexivity).
  split; [exact Hhas|]. split; [reflexivity|].
  refine (proj2 (proj2 (proj2
    (installerRedirect_first_request scenario.hooks scenario.app c Hhas eq_refl)))
    _).
  right. split; [intros H; discriminate H | vm_compute; reflexivity].
Defined.

(** An instance: the installation of the scenarios. *)
Lemma InitApi_instance_witness :
  snd (InitApi scenario.packages scenario.app scenario.hooks) =
    (Some scenario.api, None) /\
  echo.Debug scenario.api = false /\
  List.map echo.routePath (echo.routes scenario.api) = ["/_"; "/_/*"; "/api/*"].
Proof.
  assert (Hinit : snd (InitApi scenario.packages scenario.app scenario.hooks) =
                  (Some scenario.api, None)) by reflexivity.
  split; [exact Hinit|].
  destruct (InitApi_instance scenario.packages scenario.app scenario.hooks
              scenario.api Hinit) as (Hd & _ & _ & _ & _ & Hr).
  split; [exact Hd|]. rewrite (Hr eq_refl). reflexivity.
Defined.

(** An instance: no BeforeServe handler. *)
Lemma InitApi_succeeds_witness :
  core.OnBeforeServe scenario.hooks = [] /\
  exists e,
    snd (InitApi scenario.packages scenario.app scenario.hooks) = (Some e, None).
Proof.
  split; [reflexivity|].
  apply (InitApi_succeeds scenario.packages scenario.app scenario.hooks).
  intros h Hin. destruct Hin.
Defined.

(** An instance: a handler that adds a route before one that fails. *)
Lemma InitApi_fails_witness :
  let adds : App -> App * list core.RouterCall * option error :=
    fun a => (a, [core.CallAdd scenario.notFound], None) in
  let fails : App -> App * list core.RouterCall * option error :=
    fun a => (a, [], Some (errorString "port in use")) in
  let hooks := core.mkHooks [adds; fails; adds] [] [] in
  snd (InitApi scenario.packages scenario.app hooks) =
    (None, Some (errorString "port in use")).
Proof.
  intros adds fails hooks.
  apply (InitApi_fails scenario.packages scenario.app hooks [adds] [adds] fails).
  - reflexivity.
  - intros h1 [<- | []] a. reflexivity.
  - intros a. reflexivity.
Defined.

(** An instance: an unknown path under [/api]. *)
Lemma InitApi_catch_all_witness :
  let s := (scenario.app, scenario.get "/api/unknown" Absent) in
  snd (InitApi scenario.packages scenario.app scenario.hooks) =
    (Some scenario.api, None) /\
  echo.Committed (echo.response (snd s)) = false /\
  echo.Status
    (echo.response
       (snd (echo.HTTPErrorHandler scenario.api s (Some echo.ErrNotFound)))) = 404.
Proof.
  intros s.
  assert (Hinit : snd (InitApi scenario.packages scenario.app scenario.hooks) =
                  (Some scenario.api, None)) by reflexivity.
  split; [exact Hinit|]. split; [reflexivity|].
  exact (proj1 (proj2 (proj2
    (InitApi_catch_all scenario.packages scenario.app scenario.hooks
       scenario.api s Hinit eq_refl)))).
Defined.

(** An instance: a fresh installation, with a compression middleware that
    hands over. *)
Lemma bindStaticAdminUI_routes_witness :
  let fresh := mkApp false (daos.mkDao [] [] [] None) ∅ [] in
  let c := scenario.get "/_" Absent in
  let answer :=
    (setCache fresh {[totalAdminsCacheKey := Int 0]},
     redirected c "/_/?installer#") in
  Gzip scenario.packages (fresh, c) = echo.Next (fresh, c) /\
  exists index static,
    uiRoutes scenario.packages scenario.hooks = [index; static] /\
    echo.routeHandler index (fresh, c) =
      ([echo.Ran "Gzip" (fresh, c) (echo.Next (fresh, c));
        echo.Ran "installerRedirect" (fresh, c) (echo.Return answer None)],
       (answer, None)).
Proof.
  intros fresh c answer. split; [reflexivity|].
  destruct (bindStaticAdminUI_routes scenario.packages scenario.hooks (fresh, c)
              fresh c eq_refl)
    as (index & static & Hu & _ & _ & Hi & _).
  exists index, static. split; [exact Hu|].
  rewrite Hi; [reflexivity | vm_compute; reflexivity | reflexivity | reflexivity
               | vm_compute; reflexivity].
Defined.
